(** * A URL-shortening HTTP service (main.go): model and verification

    The service keeps two process-wide maps, [urlStore] and [analytics],
    behind one reader/writer lock, and serves three handlers:
    [createShortURL] (POST /shorturls), [redirectShortURL]
    (GET /{shortcode}) and [getURLStats] (GET /shorturls/{shortcode}).

    Each handler is embedded as a function of the world it runs in.  The
    world holds the two maps and the wall clock; a handler runs from its
    first statement to its last without another request in between.  The
    interleaving of concurrent requests between two lock sections is not
    part of this model, but for [createShortURL], which is also given in
    its two sections, with other requests served between them. *)

From Stdlib Require Import ZArith String Ascii List Lia.
From stdpp Require Import gmap strings list fin_maps.

Local Open Scope string_scope.
Local Open Scope Z_scope.
Local Open Scope list_scope.

(** ** Package [time]

    A [Time] is an instant, counted in nanoseconds from the Unix epoch; a
    [Duration] is Go's [int64] count of nanoseconds, so the product of two
    durations wraps around at 64 bits. *)

Module time.

Definition Time := Z.
Definition Duration := Z.

(** Two's complement reading of the low 64 bits. *)
Definition wrap64 (z : Z) : Z := (z + 2 ^ 63) mod 2 ^ 64 - 2 ^ 63.

Definition Nanosecond : Duration := 1.
Definition Second : Duration := 1000000000 * Nanosecond.
Definition Minute : Duration := 60 * Second.

(** [a * b] on [Duration]. *)
Definition mul (a b : Duration) : Duration := wrap64 (a * b).

(** [t.Add(d)] *)
Definition Add (t : Time) (d : Duration) : Time := t + d.

(** [t.After(u)] *)
Definition After (t u : Time) : bool := u <? t.

(** [t.Unix()]: whole seconds since the epoch (rounded down). *)
Definition Unix (t : Time) : Z := t / Second.

(** The layout constant [time.RFC3339]. *)
Definition RFC3339 : string := "2006-01-02T15:04:05Z07:00".

(** The text [t.Format(layout)] produces.  The rendering itself belongs to
    the [time] package; the model keeps which instant was rendered and
    with which layout. *)
Inductive Text : Type :=
| Format (t : Time) (layout : string).

End time.

Import time.

(** ** Package [strings] *)

Module strings.

(** [strings.HasPrefix(s, prefix)] *)
Definition HasPrefix (s pre : string) : bool := String.prefix pre s.

(** [strings.Split(s, sep)] for a one-character separator: the pieces of
    [s] between the occurrences of [sep]; never the empty list. *)
Fixpoint Split (s : string) (sep : ascii) : list string :=
  match s with
  | EmptyString => [EmptyString]
  | String c rest =>
      if Ascii.eqb c sep then EmptyString :: Split rest sep
      else match Split rest sep with
           | piece :: pieces => String c piece :: pieces
           | [] => [String c EmptyString]
           end
  end.

End strings.

(** ** Models *)

Record ShortURL := {
  ShortCode : string;
  OriginalURL : string;
  CreatedAt : Time;
  ExpiresAt : Time;
  IsActive : bool
}.

(** The request body as [json.Decode] fills it: an absent field keeps Go's
    zero value ([""] or [0]). *)
Record ShortURLRequest := {
  URL : string;
  Validity : Z;
  Shortcode : string
}.

Record ShortURLResponse := {
  ShortLink : string;
  Expiry : time.Text
}.

Record Click := {
  Timestamp : Time;
  Referrer : string;
  UserAgent : string;
  IPAddress : string
}.

Module URLStats.
Record t := {
  OriginalURL : string;
  CreatedAt : Time;
  ExpiresAt : Time;
  TotalClicks : nat;
  ClickDetails : list Click
}.
End URLStats.

(** ** Package [net/http]: what the handlers read of a request and write
    as a response *)

Module http.

Definition StatusOK : Z := 200.
Definition StatusCreated : Z := 201.
Definition StatusFound : Z := 302.
Definition StatusBadRequest : Z := 400.
Definition StatusNotFound : Z := 404.
Definition StatusConflict : Z := 409.
Definition StatusGone : Z := 410.

(** [Body] is the outcome of [json.NewDecoder(r.Body).Decode(&req)]:
    [None] when decoding returns an error.  [Referer] and
    [UserAgentHeader] are what [r.Referer()] and [r.UserAgent()] return,
    [Vars] is [mux.Vars(r)], and [TLS] tells whether [r.TLS] is set (the
    request came over HTTPS); no handler reads [TLS]. *)
Record Request := {
  Body : option ShortURLRequest;
  Host : string;
  TLS : bool;
  Referer : string;
  UserAgentHeader : string;
  RemoteAddr : string;
  Vars : gmap string string
}.

Inductive Response : Type :=
| Error (body : string) (code : Z)              (* http.Error(w, body, code) *)
| Created (body : ShortURLResponse)             (* WriteHeader(201) and the JSON body *)
| Redirect (url : string) (code : Z)            (* http.Redirect(w, r, url, code) *)
| Stats (body : URLStats.t).                    (* the JSON body, status 200 *)

Definition status (r : Response) : Z :=
  match r with
  | Error _ code => code
  | Created _ => StatusCreated
  | Redirect _ code => code
  | Stats _ => StatusOK
  end.

End http.

Import http.

(** ** The world a handler runs in *)

(** [clock n] is what the [n]-th call of [time.Now()] returns, [tick]
    counts the calls made so far. *)
Record World := {
  urlStore : gmap string ShortURL;
  analytics : gmap string (list Click);
  clock : nat -> Time;
  tick : nat
}.

(** A handler step either goes on with a value or has written its response
    and returned. *)
Definition Handler (A : Type) : Type := World -> (Response + A) * World.

Definition ret {A} (a : A) : Handler A := fun w => (inr a, w).

Definition bind {A B} (m : Handler A) (f : A -> Handler B) : Handler B :=
  fun w =>
    match m w with
    | (inl r, w') => (inl r, w')
    | (inr a, w') => f a w'
    end.

(** [http.Error(...); return] *)
Definition fail {A} (body : string) (code : Z) : Handler A :=
  fun w => (inl (Error body code), w).

Notation "'let!' x ':=' m 'in' k" := (bind m (fun x => k))
  (at level 10, x name, m at level 100, k at level 200).

(** [time.Now()] *)
Definition Now : Handler Time :=
  fun w => (inr (clock w (tick w)),
            {| urlStore := urlStore w; analytics := analytics w;
               clock := clock w; tick := S (tick w) |}).

(** The zero value of [ShortURL], which a map read yields for a missing
    key. *)
Definition zeroShortURL : ShortURL :=
  {| ShortCode := ""; OriginalURL := ""; CreatedAt := 0; ExpiresAt := 0;
     IsActive := false |}.

(** [url, exists := urlStore[code]] *)
Definition lookupURL (code : string) : Handler (ShortURL * bool) :=
  fun w => (inr (default zeroShortURL (urlStore w !! code),
                 bool_decide (is_Some (urlStore w !! code))), w).

(** [analytics[code]]: a missing key reads as the nil slice. *)
Definition lookupClicks (code : string) : Handler (list Click) :=
  fun w => (inr (default [] (analytics w !! code)), w).

(** [urlStore[code] = u] *)
Definition storeURL (code : string) (u : ShortURL) : Handler unit :=
  fun w => (inr tt,
            {| urlStore := <[code := u]> (urlStore w); analytics := analytics w;
               clock := clock w; tick := tick w |}).

(** [analytics[code] = cs] *)
Definition storeClicks (code : string) (cs : list Click) : Handler unit :=
  fun w => (inr tt,
            {| urlStore := urlStore w; analytics := <[code := cs]> (analytics w);
               clock := clock w; tick := tick w |}).

(** The response a handler leaves and the world it leaves behind. *)
Definition run (h : Handler Response) (w : World) : Response * World :=
  match h w with
  | (inl r, w') => (r, w')
  | (inr r, w') => (r, w')
  end.

(** ** Package [hashids] (github.com/speps/go-hashids) *)

(** Modelled from the spec: the package [hashids], which [createShortURL]
    calls to derive a short code, is a dependency and is not among the
    sources.  The spec describes it as a reversible encoding of the Unix
    timestamp, parameterised by a fixed salt and a minimum output length.
    The definitions below follow the Hashids algorithm as that package
    implements it (alphabet and separators shuffled by the salt, one
    lottery character, the number written in the base of the shuffled
    alphabet, guards and padding up to the minimum length); the examples
    after them are the package's documented test vectors. *)
Module hashids.

Definition DefaultAlphabet : string :=
  "abcdefghijklmnopqrstuvwxyzABCDEFGHIJKLMNOPQRSTUVWXYZ1234567890".
Definition minAlphabetLength : nat := 16.
Definition sepsOriginal : list ascii := list_ascii_of_string "cfhistuCFHISTU".

Record HashIDData := {
  Alphabet : string;
  MinLength : Z;
  Salt : string
}.

(** [hashids.NewData()] *)
Definition NewData : HashIDData :=
  {| Alphabet := DefaultAlphabet; MinLength := 0; Salt := "" |}.

Record HashID := {
  alphabet : list ascii;
  minLength : Z;
  salt : list ascii;
  seps : list ascii;
  guards : list ascii
}.

(** [l[i]], and [int(c)] for a rune [c]. *)
Definition rune (l : list ascii) (i : nat) : ascii := nth i l Ascii.zero.
Definition code (c : ascii) : nat := nat_of_ascii c.

(** [l[i], l[j] = l[j], l[i]] *)
Definition swap (i j : nat) (l : list ascii) : list ascii :=
  <[j := rune l i]> (<[i := rune l j]> l).

(** The loop of [consistentShuffleInPlace], entered with index [i]. *)
Fixpoint shuffleFrom (i v p : nat) (salt l : list ascii) : list ascii :=
  match i with
  | O => l
  | S i' =>
      let p' := (p + code (rune salt v))%nat in
      let j := ((code (rune salt v) + v + p') mod i)%nat in
      shuffleFrom i' (S v mod length salt)%nat p' salt (swap i j l)
  end.

Definition consistentShuffle (l salt : list ascii) : list ascii :=
  match salt with
  | [] => l
  | _ => shuffleFrom (length l - 1)%nat 0%nat 0%nat salt l
  end.

Fixpoint indexOf (c : ascii) (l : list ascii) : option nat :=
  match l with
  | [] => None
  | x :: rest => if Ascii.eqb x c then Some O else S <$> indexOf c rest
  end.

(** Separators not in the alphabet are dropped; the others are taken out
    of the alphabet. *)
Fixpoint splitSeps (seps alphabet : list ascii) : list ascii * list ascii :=
  match seps with
  | [] => ([], alphabet)
  | s :: rest =>
      match indexOf s alphabet with
      | None => splitSeps rest alphabet
      | Some j =>
          let '(seps', alphabet') := splitSeps rest (delete j alphabet) in
          (s :: seps', alphabet')
      end
  end.

(** [int(math.Ceil(float64(n) / d))] for the ratio [d = num / den]. *)
Definition ceilDiv (n num den : nat) : nat := ((n * den + num - 1) / num)%nat.

(** [hashids.NewWithData(data)]; [None] stands for the [nil] it returns
    with an error.  [sepDiv] is 3.5 and [guardDiv] is 12. *)
Definition NewWithData (data : HashIDData) : option HashID :=
  let alphabet0 := list_ascii_of_string (Alphabet data) in
  if (length alphabet0 <? minAlphabetLength)%nat then None
  else if bool_decide (" "%char ∈ alphabet0) then None
  else if negb (bool_decide (NoDup alphabet0)) then None
  else
    let salt := list_ascii_of_string (Salt data) in
    let '(seps0, alphabet1) := splitSeps sepsOriginal alphabet0 in
    let seps1 := consistentShuffle seps0 salt in
    let '(seps2, alphabet2) :=
      if ((length seps1 =? 0) || (7 * length seps1 <? 2 * length alphabet1))%nat then
        let sepsLength0 := ceilDiv (length alphabet1) 7 2 in
        let sepsLength := if (sepsLength0 =? 1)%nat then S sepsLength0 else sepsLength0 in
        if (length seps1 <? sepsLength)%nat then
          let diff := (sepsLength - length seps1)%nat in
          (seps1 ++ take diff alphabet1, drop diff alphabet1)
        else (take sepsLength seps1, alphabet1)
      else (seps1, alphabet1) in
    let alphabet3 := consistentShuffle alphabet2 salt in
    let guardCount := ceilDiv (length alphabet3) 12 1 in
    let '(guards, seps3, alphabet4) :=
      if (length alphabet3 <? 3)%nat
      then (take guardCount seps2, drop guardCount seps2, alphabet3)
      else (take guardCount alphabet3, seps2, drop guardCount alphabet3) in
    Some {| alphabet := alphabet4; minLength := MinLength data; salt := salt;
            seps := seps3; guards := guards |}.

(** The digits of [input] in the base of the alphabet, least significant
    first: the first loop of [hash], which runs its body before it tests
    [input == 0]. *)
Fixpoint hashDigits (fuel : nat) (input : Z) (alphabet : list ascii) : list ascii :=
  match fuel with
  | O => []
  | S fuel' =>
      let r := rune alphabet (Z.to_nat (input mod Z.of_nat (length alphabet))) in
      let input' := input / Z.of_nat (length alphabet) in
      if input' =? 0 then [r] else r :: hashDigits fuel' input' alphabet
  end.

(** [hash]: the digits, reversed in place by its second loop.  An [int64]
    has at most 63 digits in any base from 2 on. *)
Definition hash (input : Z) (alphabet : list ascii) : list ascii :=
  rev (hashDigits 64 input alphabet).

Fixpoint numbersHashFrom (i : Z) (numbers : list Z) : Z :=
  match numbers with
  | [] => 0
  | n :: rest => n mod (i + 100) + numbersHashFrom (i + 1) rest
  end.

(** The loop over the numbers; it returns the alphabet as the last
    shuffle left it, and the result so far. *)
Fixpoint encodeNumbers (h : HashID) (lottery : ascii) (i : Z) (numbers : list Z)
         (alphabet result : list ascii) : list ascii * list ascii :=
  match numbers with
  | [] => (alphabet, result)
  | n :: rest =>
      let buffer := lottery :: salt h ++ alphabet in
      let alphabet' := consistentShuffle alphabet (take (length alphabet) buffer) in
      let last := hash n alphabet' in
      let result' := result ++ last in
      let result'' :=
        match rest with
        | [] => result'
        | _ =>
            let n' := n mod (Z.of_nat (code (rune last 0)) + i) in
            result' ++ [rune (seps h) (Z.to_nat (n' mod Z.of_nat (length (seps h))))]
        end in
      encodeNumbers h lottery (i + 1) rest alphabet' result''
  end.

(** A guard in front and, if the result is still too short, one behind. *)
Definition addGuards (h : HashID) (numbersHash : Z) (result : list ascii) : list ascii :=
  if Z.of_nat (length result) <? minLength h then
    let g0 := (numbersHash + Z.of_nat (code (rune result 0)))
              mod Z.of_nat (length (guards h)) in
    let result1 := rune (guards h) (Z.to_nat g0) :: result in
    if Z.of_nat (length result1) <? minLength h then
      let g1 := (numbersHash + Z.of_nat (code (rune result1 2)))
                mod Z.of_nat (length (guards h)) in
      result1 ++ [rune (guards h) (Z.to_nat g1)]
    else result1
  else result.

(** [for len(result) < h.minLength { ... }]: the result is wrapped in the
    two halves of the reshuffled alphabet and cut back to the minimum
    length around its middle. *)
Fixpoint padLoop (fuel : nat) (min : Z) (halfLength : nat)
         (alphabet result : list ascii) : list ascii :=
  match fuel with
  | O => result
  | S fuel' =>
      if Z.of_nat (length result) <? min then
        let alphabet' := consistentShuffle alphabet alphabet in
        let result1 := drop halfLength alphabet' ++ result ++ take halfLength alphabet' in
        let excess := Z.of_nat (length result1) - min in
        let result2 :=
          if 0 <? excess
          then take (Z.to_nat min) (drop (Z.to_nat (excess / 2)) result1)
          else result1 in
        padLoop fuel' min halfLength alphabet' result2
      else result
  end.

Inductive error : Type :=
| errNoNumbers     (* encoding empty array of numbers makes no sense *)
| errNegative.     (* negative number not supported *)

(** [h.EncodeInt64(numbers)] *)
Definition EncodeInt64 (h : HashID) (numbers : list Z) : string * option error :=
  match numbers with
  | [] => ("", Some errNoNumbers)
  | _ =>
      if existsb (fun n => n <? 0) numbers then ("", Some errNegative)
      else
        let numbersHash := numbersHashFrom 0 numbers in
        let lottery :=
          rune (alphabet h) (Z.to_nat (numbersHash mod Z.of_nat (length (alphabet h)))) in
        let '(alphabet', result) :=
          encodeNumbers h lottery 0 numbers (alphabet h) [lottery] in
        let result' := addGuards h numbersHash result in
        let result'' :=
          padLoop (Z.to_nat (minLength h)) (minLength h) (length alphabet' / 2)%nat
                  alphabet' result' in
        (string_of_list_ascii result'', None)
  end.

(** [h.Encode(numbers)]: each [int] is converted to [int64] first. *)
Definition Encode (h : HashID) (numbers : list Z) : string * option error :=
  EncodeInt64 h numbers.

End hashids.

(** ** Handlers *)

(** The double quote character, and the body [{"error": "msg"}] the
    handlers pass to [http.Error]. *)
Definition dquote : string := String (ascii_of_nat 34) EmptyString.

Definition errorBody (msg : string) : string :=
  "{" +:+ dquote +:+ "error" +:+ dquote +:+ ": " +:+ dquote +:+ msg +:+ dquote +:+ "}".

(** The generator's settings: [hd := hashids.NewData()], then the salt and
    the minimum length. *)
Definition hd : hashids.HashIDData :=
  {| hashids.Alphabet := hashids.Alphabet hashids.NewData;
     hashids.MinLength := 5;
     hashids.Salt := "url-shortener-salt" |}.

(** [h, _ := hashids.NewWithData(hd); shortCode, _ = h.Encode([]int{int(now.Unix())})].
    Both errors are dropped.  [NewWithData] returns no error for [hd] (lemma
    [NewWithData_hd] below), so the [nil] case, in which [h.Encode] would
    panic, is never taken. *)
Definition generateShortCode (now : Time) : string :=
  match hashids.NewWithData hd with
  | Some h => fst (hashids.Encode h [Unix now])
  | None => ""
  end.

Definition createShortURL (r : Request) : Handler Response :=
  match Body r with
  | None => fail (errorBody "Invalid request body") StatusBadRequest
  | Some req =>
      if negb (strings.HasPrefix (URL req) "http://")
         && negb (strings.HasPrefix (URL req) "https://")
      then fail (errorBody "URL must start with http:// or https://") StatusBadRequest
      else
        let validity := if Validity req =? 0 then 30 else Validity req in
        let! now := Now in
        let expiresAt := Add now (mul validity Minute) in
        let! shortCode :=
          (if negb (String.eqb (Shortcode req) "") then
             let! found := lookupURL (Shortcode req) in
             if snd found
             then fail (errorBody "Shortcode already in use") StatusConflict
             else ret (Shortcode req)
           else
             let! now := Now in
             ret (generateShortCode now)) in
        let! createdAt := Now in
        let newURL :=
          {| ShortCode := shortCode;
             OriginalURL := URL req;
             CreatedAt := createdAt;
             ExpiresAt := expiresAt;
             IsActive := true |} in
        let! _ := storeURL shortCode newURL in
        let! _ := storeClicks shortCode [] in
        let host := if String.eqb (Host r) "" then "localhost:8080" else Host r in
        ret (Created {| ShortLink := "http://" +:+ host +:+ "/" +:+ shortCode;
                        Expiry := Format expiresAt RFC3339 |})
  end.

(** [mux.Vars(r)["shortcode"]] *)
Definition pathShortcode (r : Request) : string :=
  default "" (Vars r !! "shortcode").

Definition redirectShortURL (r : Request) : Handler Response :=
  let shortCode := pathShortcode r in
  let! found := lookupURL shortCode in
  let url := fst found in
  if negb (snd found) || negb (IsActive url)
  then fail (errorBody "Short URL not found") StatusNotFound
  else
    let! now := Now in
    if After now (ExpiresAt url)
    then fail (errorBody "Short URL has expired") StatusGone
    else
      let! now := Now in
      let click :=
        {| Timestamp := now;
           Referrer := Referer r;
           UserAgent := UserAgentHeader r;
           IPAddress := nth 0 (strings.Split (RemoteAddr r) ":") "" |} in
      let! clicks := lookupClicks shortCode in
      let! _ := storeClicks shortCode (clicks ++ [click]) in
      ret (Redirect (OriginalURL url) StatusFound).

Definition getURLStats (r : Request) : Handler Response :=
  let shortCode := pathShortcode r in
  let! found := lookupURL shortCode in
  let! clicks := lookupClicks shortCode in
  let url := fst found in
  if negb (snd found)
  then fail (errorBody "Short URL not found") StatusNotFound
  else
    ret (Stats {| URLStats.OriginalURL := OriginalURL url;
                  URLStats.CreatedAt := CreatedAt url;
                  URLStats.ExpiresAt := ExpiresAt url;
                  URLStats.TotalClicks := length clicks;
                  URLStats.ClickDetails := clicks |}).

(** ** Notions the properties are stated with *)

(** The URL check of [createShortURL], read positively. *)
Definition validURL (req : ShortURLRequest) : bool :=
  strings.HasPrefix (URL req) "http://" || strings.HasPrefix (URL req) "https://".

(** What a create request that gets through leaves behind: the code it
    settles on, the clock reading it stores as creation time, and the
    record it stores. *)
Definition effectiveValidity (req : ShortURLRequest) : Z :=
  if Validity req =? 0 then 30 else Validity req.

Definition chosenCode (req : ShortURLRequest) (w : World) : string :=
  if String.eqb (Shortcode req) "" then generateShortCode (clock w (S (tick w)))
  else Shortcode req.

Definition createdAtTick (req : ShortURLRequest) (w : World) : nat :=
  if String.eqb (Shortcode req) "" then S (S (tick w)) else S (tick w).

Definition newRecord (req : ShortURLRequest) (w : World) : ShortURL :=
  {| ShortCode := chosenCode req w;
     OriginalURL := URL req;
     CreatedAt := clock w (createdAtTick req w);
     ExpiresAt := Add (clock w (tick w)) (mul (effectiveValidity req) Minute);
     IsActive := true |}.

Definition linkHost (r : Request) : string :=
  if String.eqb (Host r) "" then "localhost:8080" else Host r.

(** The click sequence of a code, as a read of [analytics] gives it. *)
Definition clicksOf (w : World) (code : string) : list Click :=
  default [] (analytics w !! code).

(** Both stores are the same in two worlds. *)
Definition sameStores (w w' : World) : Prop :=
  urlStore w' = urlStore w /\ analytics w' = analytics w.

(** The largest number of minutes whose count of nanoseconds fits an
    [int64]. *)
Definition maxMinutes : Z := 153722867.

(** A clock that never runs backwards. *)
Definition monotone (c : nat -> Time) : Prop :=
  forall i j : nat, (i <= j)%nat -> c i <= c j.

(** Spec side: the remote address without its port suffix, that is without
    its last colon and what follows it. *)
Fixpoint hasColon (s : string) : bool :=
  match s with
  | EmptyString => false
  | String c rest => Ascii.eqb c ":" || hasColon rest
  end.

Fixpoint stripPort (addr : string) : string :=
  match addr with
  | EmptyString => EmptyString
  | String c rest =>
      if Ascii.eqb c ":" && negb (hasColon rest) then EmptyString
      else String c (stripPort rest)
  end.

(** Spec side: the short link built from the scheme and the host of the
    request. *)
Definition requestScheme (r : Request) : string :=
  if TLS r then "https" else "http".

Definition claimedShortLink (r : Request) (code : string) : string :=
  requestScheme r +:+ "://" +:+ Host r +:+ "/" +:+ code.

(** Spec side: what every operation is to keep of the records it finds:
    the record stays, with its short code and original URL, and the clicks
    recorded so far stay at the front of the code's click sequence. *)
Definition keepsRecords (w w' : World) : Prop :=
  forall code u,
    urlStore w !! code = Some u ->
    exists u',
      urlStore w' !! code = Some u' /\
      ShortCode u' = ShortCode u /\
      OriginalURL u' = OriginalURL u /\
      clicksOf w code `prefix_of` clicksOf w' code.

(** The click [redirectShortURL] records for request [r] at instant
    [now]. *)
Definition clickOf (r : Request) (now : Time) : Click :=
  {| Timestamp := now;
     Referrer := Referer r;
     UserAgent := UserAgentHeader r;
     IPAddress := nth 0 (strings.Split (RemoteAddr r) ":") "" |}.

(** ** Sample requests and worlds *)

(** 14 November 2023, 22:13:20 UTC. *)
Definition someInstant : Time := 1700000000 * Second.

(** A clock that reads the same instant at every call. *)
Definition frozenClock : nat -> Time := fun _ => someInstant.

(** A clock that advances by one millisecond between two readings. *)
Definition tickingClock : nat -> Time :=
  fun n => someInstant + Z.of_nat n * 1000000.

Definition emptyWorld : World :=
  {| urlStore := ∅; analytics := ∅; clock := frozenClock; tick := 0 |}.

Definition postRequest (host : string) (body : option ShortURLRequest) : Request :=
  {| Body := body; Host := host; TLS := false; Referer := "";
     UserAgentHeader := "curl/8.0"; RemoteAddr := "192.0.2.1:1234"; Vars := ∅ |}.

Definition getRequest (code addr : string) : Request :=
  {| Body := None; Host := "short.example"; TLS := false;
     Referer := "https://ref.example/"; UserAgentHeader := "curl/8.0";
     RemoteAddr := addr; Vars := {[ "shortcode" := code ]} |}.

Definition body (url : string) (validity : Z) (code : string) : ShortURLRequest :=
  {| URL := url; Validity := validity; Shortcode := code |}.

(** A world holding one record, with the clicks given. *)
Definition worldWith (u : ShortURL) (clicks : list Click) : World :=
  {| urlStore := {[ ShortCode u := u ]};
     analytics := {[ ShortCode u := clicks ]};
     clock := frozenClock; tick := 0 |}.

(** A record under the code [abc123] that expired a minute before
    [someInstant], and one that expires half an hour after it. *)
Definition expiredRecord : ShortURL :=
  {| ShortCode := "abc123"; OriginalURL := "https://example.com";
     CreatedAt := someInstant - 31 * Minute; ExpiresAt := someInstant - Minute;
     IsActive := true |}.

Definition liveRecord : ShortURL :=
  {| ShortCode := "abc123"; OriginalURL := "https://example.com";
     CreatedAt := someInstant; ExpiresAt := someInstant + 30 * Minute;
     IsActive := true |}.

(** Two create requests without a custom code, served within the same
    second, with one redirect between them. *)
Definition firstCreate : Request :=
  postRequest "short.example" (Some (body "https://first.example" 0 "")).

Definition secondCreate : Request :=
  postRequest "short.example" (Some (body "https://second.example" 0 "")).

Definition afterFirstCreate : World := snd (run (createShortURL firstCreate) emptyWorld).

Definition afterOneClick : World :=
  snd (run (redirectShortURL (getRequest "NgJE3mQ" "192.0.2.1:1234")) afterFirstCreate).

Definition afterSecondCreate : World :=
  snd (run (createShortURL secondCreate) afterOneClick).

(** A world whose clock reads one second before the Unix epoch. *)
Definition preEpochWorld : World :=
  {| urlStore := ∅; analytics := ∅; clock := fun _ => - Second; tick := 0 |}.

(** Encoding with the default alphabet, a salt and a minimum length. *)
Definition withSalt (s : string) (min : Z) (numbers : list Z) : option string :=
  h ← hashids.NewWithData
        {| hashids.Alphabet := hashids.DefaultAlphabet;
           hashids.MinLength := min; hashids.Salt := s |};
  Some (fst (hashids.Encode h numbers)).

(** * Properties *)

(** ** The short-code generator *)

Section Hashids.

Import hashids.

(** The package's documented test vectors. *)
Example vector_single : withSalt "this is my salt" 0 [12345] = Some "NkK9".
Proof. vm_compute. reflexivity. Qed.

Example vector_several :
  withSalt "this is my salt" 0 [683; 94108; 123; 5] = Some "aBMswoO2UB3Sj".
Proof. vm_compute. reflexivity. Qed.

Example vector_min_length : withSalt "this is my salt" 8 [1] = Some "gB0NV05e".
Proof. vm_compute. reflexivity. Qed.

Example vector_no_salt : withSalt "" 0 [1; 2; 3] = Some "o2fXhV".
Proof. vm_compute. reflexivity. Qed.

Lemma swap_length i j l : length (swap i j l) = length l.
Proof. unfold swap. by rewrite !length_insert. Qed.

Lemma shuffleFrom_length i : forall v p s l,
  length (shuffleFrom i v p s l) = length l.
Proof.
  induction i as [|i IH]; intros v p s l; simpl; [done|].
  by rewrite IH, swap_length.
Qed.

Lemma consistentShuffle_length l s : length (consistentShuffle l s) = length l.
Proof. destruct s; simpl; [done|]. apply shuffleFrom_length. Qed.

Lemma encodeNumbers_alphabet_length h lottery numbers : forall i a result,
  length (fst (encodeNumbers h lottery i numbers a result)) = length a.
Proof.
  induction numbers as [|n rest IH]; intros i a result; simpl; [done|].
  by rewrite IH, consistentShuffle_length.
Qed.

(** Once the fuel covers the missing characters, the padding loop ends
    with a result of the minimum length or more. *)
Lemma padLoop_length fuel : forall min half a result,
  (0 < length a)%nat -> (half <= length a)%nat ->
  min - Z.of_nat (length result) <= Z.of_nat fuel ->
  min <= Z.of_nat (length (padLoop fuel min half a result)).
Proof.
  induction fuel as [|fuel IH]; intros min half a result Ha Hhalf Hfuel; simpl.
  - lia.
  - destruct (Z.ltb_spec (Z.of_nat (length result)) min) as [Hshort|]; [|lia].
    set (a' := consistentShuffle a a).
    assert (Ha' : length a' = length a) by apply consistentShuffle_length.
    set (result1 := drop half a' ++ result ++ take half a').
    assert (Hlen1 : length result1 = (length a + length result)%nat).
    { unfold result1. rewrite !length_app, length_drop, length_take. lia. }
    apply IH; try lia.
    destruct (Z.ltb_spec 0 (Z.of_nat (length result1) - min)) as [Hexcess|Hexcess].
    + rewrite length_take, length_drop.
      assert ((Z.of_nat (length result1) - min) / 2 <= Z.of_nat (length result1) - min)
        by (apply Z.div_le_upper_bound; lia).
      assert (0 <= (Z.of_nat (length result1) - min) / 2)
        by (apply Z.div_pos; lia).
      lia.
    + lia.
Qed.

Lemma string_of_list_ascii_length l :
  String.length (string_of_list_ascii l) = length l.
Proof. induction l as [|c l IH]; simpl; [done|]. by rewrite IH. Qed.

(** A non-empty list of non-negative numbers encodes, without error, to a
    string of the minimum length or more. *)
Lemma EncodeInt64_min_length h numbers :
  (0 < length (alphabet h))%nat ->
  numbers <> [] ->
  Forall (fun n => 0 <= n) numbers ->
  snd (EncodeInt64 h numbers) = None /\
  minLength h <= Z.of_nat (String.length (fst (EncodeInt64 h numbers))).
Proof.
  intros Ha Hne Hpos. unfold EncodeInt64.
  destruct numbers as [|n rest]; [done|].
  assert (Hneg : existsb (fun n => n <? 0) (n :: rest) = false).
  { apply not_true_is_false. intros Hex. apply existsb_exists in Hex.
    destruct Hex as (x & Hin & Hx). rewrite Forall_forall in Hpos.
    apply list_elem_of_In, Hpos in Hin. lia. }
  rewrite Hneg.
  set (nh := numbersHashFrom 0 (n :: rest)).
  set (lot := rune (alphabet h) (Z.to_nat (nh mod Z.of_nat (length (alphabet h))))).
  pose proof (encodeNumbers_alphabet_length h lot (n :: rest) 0 (alphabet h) [lot]) as Hlen.
  destruct (encodeNumbers h lot 0 (n :: rest) (alphabet h) [lot]) as [a' result] eqn:Henc.
  cbn [fst snd] in *. split; [done|].
  rewrite string_of_list_ascii_length.
  apply padLoop_length; [lia| |lia].
  apply Nat.Div0.div_le_upper_bound. lia.
Qed.

(** The 64 rounds [hash] is given are enough for every [int64]: more
    rounds produce the same digits. *)
Lemma hashDigits_fuel fuel : forall n a k,
  (2 <= length a)%nat -> 0 <= n < 2 ^ Z.of_nat fuel ->
  hashDigits (S fuel + k) n a = hashDigits (S fuel) n a.
Proof.
  induction fuel as [|fuel IH]; intros n a k Ha Hn.
  - assert (n = 0) by (simpl in Hn; lia). subst n. reflexivity.
  - change (S (S fuel) + k)%nat with (S (S fuel + k)).
    cbn [hashDigits].
    destruct (n / Z.of_nat (length a) =? 0) eqn:Hq; [done|].
    f_equal. apply IH; [done|].
    split; [apply Z.div_pos; lia|].
    apply Z.div_lt_upper_bound; [lia|].
    rewrite Nat2Z.inj_succ, Z.pow_succ_r in Hn by lia. nia.
Qed.

Lemma hash_fuel_enough n a k :
  (2 <= length a)%nat -> 0 <= n < 2 ^ 63 ->
  rev (hashDigits (64 + k) n a) = hash n a.
Proof.
  intros Ha Hn. unfold hash.
  assert (Hn' : 0 <= n < 2 ^ Z.of_nat 63) by (simpl Z.of_nat; exact Hn).
  pose proof (hashDigits_fuel 63 n a k Ha Hn') as Heq.
  change (S 63 + k)%nat with (64 + k)%nat in Heq.
  change (S 63) with 64%nat in Heq.
  by rewrite Heq.
Qed.

(** The generator's settings are accepted: 44 letters, 14 separators and
    4 guards. *)
Lemma NewWithData_hd :
  exists h, NewWithData hd = Some h /\ length (alphabet h) = 44%nat /\
            length (seps h) = 14%nat /\ length (guards h) = 4%nat /\
            minLength h = 5.
Proof. eexists. split; [vm_compute; reflexivity|]. by vm_compute. Qed.

End Hashids.



Lemma generateShortCode_length (now : Time) :
  0 <= Unix now -> (5 <= String.length (generateShortCode now))%nat.
Proof.
  intros Hnow. unfold generateShortCode.
  destruct NewWithData_hd as (h & Hh & Ha & _ & _ & Hmin). rewrite Hh.
  destruct (EncodeInt64_min_length h [Unix now]) as [_ Hlen].
  - lia.
  - done.
  - by repeat constructor.
  - unfold hashids.Encode. lia.
Qed.

Arguments generateShortCode : simpl never.

(** ** What each handler computes *)

Ltac step_handler :=
  unfold run, bind, ret, fail, Now, lookupURL, lookupClicks, storeURL, storeClicks;
  cbn [fst snd urlStore analytics clock tick negb orb andb].

Lemma validURL_false req :
  validURL req = false <->
  strings.HasPrefix (URL req) "http://" = false /\
  strings.HasPrefix (URL req) "https://" = false.
Proof. unfold validURL. apply orb_false_iff. Qed.

Lemma create_run_no_body r w :
  Body r = None ->
  run (createShortURL r) w
  = (Error (errorBody "Invalid request body") StatusBadRequest, w).
Proof. intros Hb. unfold createShortURL. rewrite Hb. reflexivity. Qed.

Lemma create_run_bad_url r w req :
  Body r = Some req -> validURL req = false ->
  run (createShortURL r) w
  = (Error (errorBody "URL must start with http:// or https://") StatusBadRequest, w).
Proof.
  intros Hb Hv. unfold createShortURL. rewrite Hb.
  apply validURL_false in Hv as [-> ->]. reflexivity.
Qed.

Lemma create_run_conflict r w req :
  Body r = Some req -> validURL req = true ->
  Shortcode req <> "" -> is_Some (urlStore w !! Shortcode req) ->
  run (createShortURL r) w
  = (Error (errorBody "Shortcode already in use") StatusConflict,
     {| urlStore := urlStore w; analytics := analytics w;
        clock := clock w; tick := S (tick w) |}).
Proof.
  intros Hb Hv Hne Hin. unfold createShortURL. rewrite Hb.
  unfold validURL in Hv. rewrite <- negb_orb, Hv. cbn [negb].
  apply String.eqb_neq in Hne. rewrite Hne. step_handler.
  by rewrite bool_decide_eq_true_2.
Qed.

Lemma create_run_created r w req :
  Body r = Some req -> validURL req = true ->
  (Shortcode req = "" \/ urlStore w !! Shortcode req = None) ->
  run (createShortURL r) w
  = (Created {| ShortLink := "http://" +:+ linkHost r +:+ "/" +:+ chosenCode req w;
                Expiry := Format (ExpiresAt (newRecord req w)) RFC3339 |},
     {| urlStore := <[chosenCode req w := newRecord req w]> (urlStore w);
        analytics := <[chosenCode req w := []]> (analytics w);
        clock := clock w; tick := S (createdAtTick req w) |}).
Proof.
  intros Hb Hv Hfree. unfold createShortURL. rewrite Hb.
  unfold validURL in Hv. rewrite <- negb_orb, Hv. cbn [negb].
  unfold newRecord, chosenCode, createdAtTick, linkHost, effectiveValidity.
  destruct (String.eqb (Shortcode req) "") eqn:Hcustom; step_handler.
  - reflexivity.
  - destruct Hfree as [He|Hnone].
    + apply String.eqb_neq in Hcustom. done.
    + rewrite bool_decide_eq_false_2; [reflexivity|].
      rewrite Hnone. by intros [? ?].
Qed.

(** The four ways [createShortURL] ends. *)
Lemma create_cases r w :
  (Body r = None /\
   run (createShortURL r) w
   = (Error (errorBody "Invalid request body") StatusBadRequest, w))
  \/ (exists req, Body r = Some req /\ validURL req = false /\
      run (createShortURL r) w
      = (Error (errorBody "URL must start with http:// or https://")
               StatusBadRequest, w))
  \/ (exists req, Body r = Some req /\ validURL req = true /\
      Shortcode req <> "" /\ is_Some (urlStore w !! Shortcode req) /\
      run (createShortURL r) w
      = (Error (errorBody "Shortcode already in use") StatusConflict,
         {| urlStore := urlStore w; analytics := analytics w;
            clock := clock w; tick := S (tick w) |}))
  \/ (exists req, Body r = Some req /\ validURL req = true /\
      (Shortcode req = "" \/ urlStore w !! Shortcode req = None) /\
      run (createShortURL r) w
      = (Created {| ShortLink := "http://" +:+ linkHost r +:+ "/" +:+ chosenCode req w;
                    Expiry := Format (ExpiresAt (newRecord req w)) RFC3339 |},
         {| urlStore := <[chosenCode req w := newRecord req w]> (urlStore w);
            analytics := <[chosenCode req w := []]> (analytics w);
            clock := clock w; tick := S (createdAtTick req w) |})).
Proof.
  destruct (Body r) as [req|] eqn:Hb.
  - destruct (validURL req) eqn:Hv.
    + destruct (decide (Shortcode req = "")) as [He|Hne].
      * do 3 right. exists req.
        split; [done|]. split; [done|]. split; [by left|].
        apply create_run_created; auto.
      * destruct (urlStore w !! Shortcode req) as [u|] eqn:Hu.
        -- right; right; left. exists req.
           split; [done|]. split; [done|]. split; [done|]. split; [by rewrite Hu|].
           apply (create_run_conflict r w req); done.
        -- do 3 right. exists req.
           split; [done|]. split; [done|]. split; [by right|].
           apply create_run_created; auto.
    + right; left. exists req.
      split; [done|]. split; [done|]. by apply (create_run_bad_url r w req).
  - left. split; [done|]. by apply create_run_no_body.
Qed.

Lemma redirect_run_absent r w :
  urlStore w !! pathShortcode r = None ->
  run (redirectShortURL r) w
  = (Error (errorBody "Short URL not found") StatusNotFound, w).
Proof.
  intros Hu. unfold redirectShortURL. step_handler. rewrite Hu.
  rewrite bool_decide_eq_false_2 by (by intros [? ?]). reflexivity.
Qed.

Lemma redirect_run_inactive r w u :
  urlStore w !! pathShortcode r = Some u -> IsActive u = false ->
  run (redirectShortURL r) w
  = (Error (errorBody "Short URL not found") StatusNotFound, w).
Proof.
  intros Hu Hact. unfold redirectShortURL. step_handler. rewrite Hu.
  cbn [default from_option id]. rewrite Hact, orb_true_r. reflexivity.
Qed.

Lemma redirect_run_expired r w u :
  urlStore w !! pathShortcode r = Some u -> IsActive u = true ->
  ExpiresAt u < clock w (tick w) ->
  run (redirectShortURL r) w
  = (Error (errorBody "Short URL has expired") StatusGone,
     {| urlStore := urlStore w; analytics := analytics w;
        clock := clock w; tick := S (tick w) |}).
Proof.
  intros Hu Hact Hexp. unfold redirectShortURL. step_handler. rewrite Hu.
  cbn [default from_option id]. rewrite Hact, bool_decide_eq_true_2 by eauto.
  step_handler. unfold After.
  destruct (Z.ltb_spec (ExpiresAt u) (clock w (tick w))); [reflexivity|lia].
Qed.

Lemma redirect_run_found r w u :
  urlStore w !! pathShortcode r = Some u -> IsActive u = true ->
  clock w (tick w) <= ExpiresAt u ->
  run (redirectShortURL r) w
  = (Redirect (OriginalURL u) StatusFound,
     {| urlStore := urlStore w;
        analytics :=
          <[pathShortcode r :=
              clicksOf w (pathShortcode r) ++ [clickOf r (clock w (S (tick w)))]]>
            (analytics w);
        clock := clock w; tick := S (S (tick w)) |}).
Proof.
  intros Hu Hact Hexp. unfold redirectShortURL. step_handler. rewrite Hu.
  cbn [default from_option id]. rewrite Hact, bool_decide_eq_true_2 by eauto.
  step_handler. unfold After.
  destruct (Z.ltb_spec (ExpiresAt u) (clock w (tick w))); [lia|reflexivity].
Qed.

Lemma stats_run_absent r w :
  urlStore w !! pathShortcode r = None ->
  run (getURLStats r) w
  = (Error (errorBody "Short URL not found") StatusNotFound, w).
Proof.
  intros Hu. unfold getURLStats. step_handler. rewrite Hu.
  rewrite bool_decide_eq_false_2 by (by intros [? ?]). reflexivity.
Qed.

Lemma stats_run_found r w u :
  urlStore w !! pathShortcode r = Some u ->
  run (getURLStats r) w
  = (Stats {| URLStats.OriginalURL := OriginalURL u;
              URLStats.CreatedAt := CreatedAt u;
              URLStats.ExpiresAt := ExpiresAt u;
              URLStats.TotalClicks := length (clicksOf w (pathShortcode r));
              URLStats.ClickDetails := clicksOf w (pathShortcode r) |}, w).
Proof.
  intros Hu. unfold getURLStats. step_handler. rewrite Hu.
  rewrite bool_decide_eq_true_2 by eauto. reflexivity.
Qed.


(** ** Redirect: not found and gone *)

(** C1.  A redirect for a code that has no record, or whose record is not
    active, ends with status 404; a redirect for a code whose record is
    there and active, read by the clock strictly after the record's expiry,
    ends with status 410.  The two statuses differ, so an expired code is
    told apart from one that never existed. *)
Theorem redirect_not_found_or_gone (r : Request) (w : World) :
  ((urlStore w !! pathShortcode r = None \/
    exists u, urlStore w !! pathShortcode r = Some u /\ IsActive u = false) ->
   status (fst (run (redirectShortURL r) w)) = StatusNotFound)
  /\ (forall u, urlStore w !! pathShortcode r = Some u ->
                IsActive u = true ->
                ExpiresAt u < clock w (tick w) ->
                status (fst (run (redirectShortURL r) w)) = StatusGone)
  /\ StatusNotFound <> StatusGone.
Proof.
  split; [|split].
  - intros [Hnone|(u & Hu & Hact)].
    + by rewrite redirect_run_absent.
    + by rewrite (redirect_run_inactive r w u).
  - intros u Hu Hact Hexp. by rewrite (redirect_run_expired r w u).
  - done.
Qed.

Lemma redirect_not_found_or_gone_witness :
  status (fst (run (redirectShortURL (getRequest "nope" "192.0.2.1:1234")) emptyWorld))
  = StatusNotFound
  /\ status (fst (run (redirectShortURL (getRequest "abc123" "192.0.2.1:1234"))
                      (worldWith expiredRecord [])))
     = StatusGone.
Proof.
  split.
  - apply (proj1 (redirect_not_found_or_gone _ _)). left. reflexivity.
  - apply (proj1 (proj2 (redirect_not_found_or_gone _ _)) expiredRecord).
    + reflexivity.
    + reflexivity.
    + reflexivity.
Defined.

(** ** Create: the 400 answers *)

(** C2.  A create request ends with status 400 exactly when its body does
    not parse or its URL starts with neither [http://] nor [https://]; and
    when it ends with status 400 both stores are as they were. *)
Theorem create_bad_request_iff (r : Request) (w : World) :
  (status (fst (run (createShortURL r) w)) = StatusBadRequest <->
   (Body r = None \/
    exists req, Body r = Some req /\
                strings.HasPrefix (URL req) "http://" = false /\
                strings.HasPrefix (URL req) "https://" = false))
  /\ (status (fst (run (createShortURL r) w)) = StatusBadRequest ->
      sameStores w (snd (run (createShortURL r) w))).
Proof.
  destruct (create_cases r w)
    as [(Hb & ->)|[(req & Hb & Hv & ->)|[(req & Hb & Hv & _ & _ & ->)
                                        |(req & Hb & Hv & _ & ->)]]];
    cbn [fst snd status].
  - split; [|done]. split; [by left|done].
  - split; [|done]. split; [|done].
    intros _. right. exists req. split; [done|]. by apply validURL_false.
  - split; [|done]. split; [done|].
    intros [Hn|(req' & Hb' & Hf)]; [congruence|].
    assert (req' = req) by congruence. subst req'.
    apply validURL_false in Hf. congruence.
  - split; [|done]. split; [done|].
    intros [Hn|(req' & Hb' & Hf)]; [congruence|].
    assert (req' = req) by congruence. subst req'.
    apply validURL_false in Hf. congruence.
Qed.

(** ** Stats *)

(** C5.  A stats request ends with status 404 exactly when the code has no
    record.  Otherwise, whatever the record's expiry and active flag, the
    answer carries the record's original URL, creation and expiry
    timestamps, the code's click sequence as stored, and its length as
    [TotalClicks].  In both cases the world, and so both stores, is left as
    it was. *)
Theorem stats_of_record (r : Request) (w : World) :
  (status (fst (run (getURLStats r) w)) = StatusNotFound <->
   urlStore w !! pathShortcode r = None)
  /\ (forall u, urlStore w !! pathShortcode r = Some u ->
        fst (run (getURLStats r) w)
        = Stats {| URLStats.OriginalURL := OriginalURL u;
                   URLStats.CreatedAt := CreatedAt u;
                   URLStats.ExpiresAt := ExpiresAt u;
                   URLStats.TotalClicks := length (clicksOf w (pathShortcode r));
                   URLStats.ClickDetails := clicksOf w (pathShortcode r) |})
  /\ snd (run (getURLStats r) w) = w
  /\ sameStores w (snd (run (getURLStats r) w)).
Proof.
  destruct (urlStore w !! pathShortcode r) as [u|] eqn:Hu.
  - rewrite (stats_run_found r w u Hu). cbn [fst snd status].
    repeat split; try done. intros u' [= <-]. reflexivity.
  - rewrite (stats_run_absent r w Hu). cbn [fst snd status].
    repeat split; done.
Qed.

(** ** Create: what a request that gets through stores and answers *)

Lemma chosenCode_custom req w : Shortcode req <> "" -> chosenCode req w = Shortcode req.
Proof. intros Hne. unfold chosenCode. apply String.eqb_neq in Hne. by rewrite Hne. Qed.

Lemma chosenCode_generated req w :
  Shortcode req = "" -> chosenCode req w = generateShortCode (clock w (S (tick w))).
Proof. intros He. unfold chosenCode. by rewrite He. Qed.

(** Within [maxMinutes] on either side, the count of nanoseconds does not
    wrap around. *)
Lemma mul_minutes v : - maxMinutes <= v <= maxMinutes -> mul v Minute = v * Minute.
Proof.
  unfold maxMinutes, mul, wrap64, Minute, Second, Nanosecond. intros Hv.
  rewrite Z.mod_small; lia.
Qed.

(** A create request answers 201 exactly in the last of the four cases. *)
Lemma create_created_inv r w :
  status (fst (run (createShortURL r) w)) = StatusCreated ->
  exists req, Body r = Some req /\ validURL req = true /\
    (Shortcode req = "" \/ urlStore w !! Shortcode req = None) /\
    run (createShortURL r) w
    = (Created {| ShortLink := "http://" +:+ linkHost r +:+ "/" +:+ chosenCode req w;
                  Expiry := Format (ExpiresAt (newRecord req w)) RFC3339 |},
       {| urlStore := <[chosenCode req w := newRecord req w]> (urlStore w);
          analytics := <[chosenCode req w := []]> (analytics w);
          clock := clock w; tick := S (createdAtTick req w) |}).
Proof.
  destruct (create_cases r w)
    as [(Hb & ->)|[(req & Hb & Hv & ->)|[(req & Hb & Hv & _ & _ & ->)
                                        |(req & Hb & Hv & Hfree & Hrun)]]];
    cbn [fst snd status]; try discriminate.
  intros _. exists req. auto.
Qed.


(** C3, as stated, fails: a request with a custom code that is taken, but
    with a URL of another scheme, is answered 400 and not 409. *)
Lemma custom_code_taken_bad_url :
  Body (postRequest "short.example" (Some (body "ftp://example.com" 0 "abc123")))
  = Some (body "ftp://example.com" 0 "abc123")
  /\ Shortcode (body "ftp://example.com" 0 "abc123") = "abc123"
  /\ urlStore (worldWith liveRecord []) !! "abc123" = Some liveRecord
  /\ status (fst (run (createShortURL
                         (postRequest "short.example"
                            (Some (body "ftp://example.com" 0 "abc123"))))
                      (worldWith liveRecord [])))
     = StatusBadRequest
  /\ StatusBadRequest <> StatusConflict.
Proof. repeat split; try reflexivity. done. Qed.

(** C3, amended.  For a create request that passes the 400 checks (its
    body parses and its URL starts with [http://] or [https://]) and names
    a custom short code: if the code has a record, the answer is 409 and
    both stores are as they were; if not, the answer is 201 and the code
    itself is the key and the short code of the record stored, with an
    empty click sequence. *)
Theorem create_custom_code (r : Request) (w : World) (req : ShortURLRequest) :
  Body r = Some req ->
  validURL req = true ->
  Shortcode req <> "" ->
  (is_Some (urlStore w !! Shortcode req) ->
   status (fst (run (createShortURL r) w)) = StatusConflict /\
   sameStores w (snd (run (createShortURL r) w)))
  /\ (urlStore w !! Shortcode req = None ->
      status (fst (run (createShortURL r) w)) = StatusCreated /\
      exists u,
        urlStore (snd (run (createShortURL r) w)) !! Shortcode req = Some u /\
        ShortCode u = Shortcode req /\
        OriginalURL u = URL req /\
        analytics (snd (run (createShortURL r) w)) !! Shortcode req = Some []).
Proof.
  intros Hb Hv Hne. split.
  - intros Hin. rewrite (create_run_conflict r w req) by done. by cbn.
  - intros Hnone. rewrite (create_run_created r w req) by auto.
    cbn [fst snd status urlStore analytics]. split; [done|].
    rewrite (chosenCode_custom req w Hne).
    exists (newRecord req w). rewrite !lookup_insert_eq.
    repeat split. cbn. by apply chosenCode_custom.
Qed.

Lemma create_custom_code_witness :
  (status (fst (run (createShortURL
                       (postRequest "short.example"
                          (Some (body "https://example.com" 0 "abc123"))))
                    (worldWith liveRecord [])))
   = StatusConflict)
  /\ (status (fst (run (createShortURL
                          (postRequest "short.example"
                             (Some (body "https://example.com" 0 "abc123"))))
                       emptyWorld))
      = StatusCreated).
Proof.
  split.
  - apply (proj1 (create_custom_code
                    (postRequest "short.example"
                       (Some (body "https://example.com" 0 "abc123")))
                    (worldWith liveRecord [])
                    (body "https://example.com" 0 "abc123")
                    eq_refl eq_refl ltac:(discriminate))).
    by exists liveRecord.
  - apply (proj2 (create_custom_code
                    (postRequest "short.example"
                       (Some (body "https://example.com" 0 "abc123")))
                    emptyWorld
                    (body "https://example.com" 0 "abc123")
                    eq_refl eq_refl ltac:(discriminate))).
    reflexivity.
Defined.

(** C8, as stated, fails: for a request that carries no host, the link in
    the answer names [localhost:8080], which is not the request's host. *)
Lemma short_link_without_host :
  fst (run (createShortURL
              (postRequest "" (Some (body "https://example.com" 0 "abc123"))))
           emptyWorld)
  = Created {| ShortLink := "http://localhost:8080/abc123";
               Expiry := Format (someInstant + 30 * Minute) RFC3339 |}
  /\ claimedShortLink
       (postRequest "" (Some (body "https://example.com" 0 "abc123"))) "abc123"
     = "http:///abc123".
Proof. split; reflexivity. Qed.

(** C8, amended.  A create request answered 201 carries, as short link, the
    text [http://], then the request's host, or [localhost:8080] when the
    request has none, then [/], then the short code of the record it
    stored; and, as expiry, that record's expiry timestamp rendered with
    the RFC 3339 layout.  The scheme is always [http]. *)
Theorem create_response_link (r : Request) (w : World) :
  status (fst (run (createShortURL r) w)) = StatusCreated ->
  exists code u,
    urlStore (snd (run (createShortURL r) w)) !! code = Some u /\
    ShortCode u = code /\
    fst (run (createShortURL r) w)
    = Created {| ShortLink :=
                   "http://"
                   +:+ (if String.eqb (Host r) "" then "localhost:8080" else Host r)
                   +:+ "/" +:+ code;
                 Expiry := Format (ExpiresAt u) RFC3339 |}.
Proof.
  intros Hst. destruct (create_created_inv r w Hst) as (req & Hb & Hv & Hfree & ->).
  cbn [fst snd urlStore]. exists (chosenCode req w), (newRecord req w).
  rewrite lookup_insert_eq. repeat split.
Qed.

Lemma create_response_link_witness :
  exists code u,
    urlStore (snd (run (createShortURL firstCreate) emptyWorld)) !! code = Some u /\
    ShortCode u = code /\
    fst (run (createShortURL firstCreate) emptyWorld)
    = Created {| ShortLink :=
                   "http://"
                   +:+ (if String.eqb (Host firstCreate) "" then "localhost:8080"
                        else Host firstCreate)
                   +:+ "/" +:+ code;
                 Expiry := Format (ExpiresAt u) RFC3339 |}.
Proof. apply (create_response_link firstCreate emptyWorld). reflexivity. Defined.

(** ** Create: the expiry *)

(** C9, as stated, fails: with a validity of 153722868 minutes the count of
    nanoseconds wraps around, and the record expires long before it was
    created, although the clock read the same instant throughout. *)
Lemma validity_wraps_around :
  urlStore (snd (run (createShortURL
                        (postRequest "short.example"
                           (Some (body "https://example.com" 153722868 "abc123"))))
                     emptyWorld)) !! "abc123"
  = Some {| ShortCode := "abc123"; OriginalURL := "https://example.com";
            CreatedAt := someInstant;
            ExpiresAt := someInstant - 9223371993709551616;
            IsActive := true |}
  /\ someInstant - 9223371993709551616 < someInstant + 153722868 * Minute.
Proof. split; reflexivity. Qed.

(** The creation timestamp is a later reading of the clock than the one the
    expiry is counted from; on a clock that advances, the two differ. *)
Example creation_after_expiry_base :
  urlStore (snd (run (createShortURL
                        (postRequest "short.example"
                           (Some (body "https://example.com" 0 "abc123"))))
                     {| urlStore := ∅; analytics := ∅;
                        clock := tickingClock; tick := 0 |})) !! "abc123"
  = Some {| ShortCode := "abc123"; OriginalURL := "https://example.com";
            CreatedAt := someInstant + 1000000;
            ExpiresAt := someInstant + 30 * Minute;
            IsActive := true |}.
Proof. reflexivity. Qed.

(** C9, amended.  For a create request answered 201, the record stored
    expires 30 minutes after the clock reading the handler takes first,
    when the validity is zero or absent, and [v] minutes after that
    reading when the validity is [v] with [0 < v <= maxMinutes].  The
    record's creation timestamp is the next reading of the clock, or the
    one after it. *)
Theorem create_expiry (r : Request) (w : World) (req : ShortURLRequest) :
  Body r = Some req ->
  status (fst (run (createShortURL r) w)) = StatusCreated ->
  0 <= Validity req <= maxMinutes ->
  exists code u,
    urlStore (snd (run (createShortURL r) w)) !! code = Some u /\
    ShortCode u = code /\
    ExpiresAt u
    = Add (clock w (tick w))
          ((if Validity req =? 0 then 30 else Validity req) * Minute) /\
    exists k, (1 <= k <= 2)%nat /\ CreatedAt u = clock w (tick w + k)%nat.
Proof.
  intros Hb Hst Hv.
  destruct (create_created_inv r w Hst) as (req' & Hb' & _ & _ & ->).
  assert (req' = req) by congruence. subst req'.
  cbn [fst snd urlStore]. exists (chosenCode req w), (newRecord req w).
  rewrite lookup_insert_eq. repeat split.
  - cbn [newRecord ExpiresAt]. f_equal. unfold effectiveValidity.
    destruct (Z.eqb_spec (Validity req) 0).
    + apply mul_minutes. unfold maxMinutes. lia.
    + apply mul_minutes. unfold maxMinutes in *. lia.
  - cbn [newRecord CreatedAt]. unfold createdAtTick.
    destruct (String.eqb (Shortcode req) "").
    + exists 2%nat. split; [lia|]. f_equal. lia.
    + exists 1%nat. split; [lia|]. f_equal. lia.
Qed.

Lemma create_expiry_witness :
  exists code u,
    urlStore (snd (run (createShortURL
                          (postRequest "short.example"
                             (Some (body "https://example.com" 45 "abc123"))))
                       emptyWorld)) !! code = Some u /\
    ShortCode u = code /\
    ExpiresAt u = Add (clock emptyWorld (tick emptyWorld)) (45 * Minute) /\
    exists k, (1 <= k <= 2)%nat /\
              CreatedAt u = clock emptyWorld (tick emptyWorld + k)%nat.
Proof.
  apply (create_expiry
           (postRequest "short.example" (Some (body "https://example.com" 45 "abc123")))
           emptyWorld (body "https://example.com" 45 "abc123")).
  - reflexivity.
  - reflexivity.
  - unfold maxMinutes. cbn. lia.
Defined.

(** C10, as stated, fails: with a validity of -153722868 minutes the count
    of nanoseconds wraps around to a positive one; the request is answered
    201, but the record expires long after its creation, and a redirect
    that follows it is served (302) and not refused. *)
Lemma negative_validity_wraps_around :
  status (fst (run (createShortURL
                      (postRequest "short.example"
                         (Some (body "https://example.com" (-153722868) "abc123"))))
                   emptyWorld))
  = StatusCreated
  /\ urlStore (snd (run (createShortURL
                           (postRequest "short.example"
                              (Some (body "https://example.com" (-153722868) "abc123"))))
                        emptyWorld)) !! "abc123"
     = Some {| ShortCode := "abc123"; OriginalURL := "https://example.com";
               CreatedAt := someInstant;
               ExpiresAt := someInstant + 9223371993709551616;
               IsActive := true |}
  /\ someInstant < someInstant + 9223371993709551616
  /\ status (fst (run (redirectShortURL (getRequest "abc123" "192.0.2.1:1234"))
                      (snd (run (createShortURL
                                   (postRequest "short.example"
                                      (Some (body "https://example.com"
                                                  (-153722868) "abc123"))))
                                emptyWorld))))
     = StatusFound.
Proof. repeat split; reflexivity. Qed.

(** C10, amended.  A create request with a valid URL, a validity [v] with
    [- maxMinutes <= v < 0], and no custom code that is already taken, is
    answered 201.  The record it stores expires [v] minutes after the
    handler's first clock reading (the 30 minutes stand in for zero only)
    and so, on a clock that never runs backwards, strictly before its
    creation timestamp; and every later redirect for the code, made while
    that record is the one stored, is answered 410. *)
Theorem create_negative_validity (r : Request) (w : World) (req : ShortURLRequest) :
  Body r = Some req ->
  validURL req = true ->
  (Shortcode req = "" \/ urlStore w !! Shortcode req = None) ->
  - maxMinutes <= Validity req < 0 ->
  monotone (clock w) ->
  status (fst (run (createShortURL r) w)) = StatusCreated /\
  exists code u,
    urlStore (snd (run (createShortURL r) w)) !! code = Some u /\
    ShortCode u = code /\
    ExpiresAt u = Add (clock w (tick w)) (Validity req * Minute) /\
    ExpiresAt u < CreatedAt u /\
    forall r2 w2,
      pathShortcode r2 = code ->
      urlStore w2 !! code = Some u ->
      clock w2 = clock w ->
      (tick (snd (run (createShortURL r) w)) <= tick w2)%nat ->
      status (fst (run (redirectShortURL r2) w2)) = StatusGone.
Proof.
  intros Hb Hv Hfree Hneg Hmono.
  rewrite (create_run_created r w req) by auto.
  cbn [fst snd status urlStore tick]. split; [done|].
  exists (chosenCode req w), (newRecord req w).
  rewrite lookup_insert_eq.
  assert (Hexp : ExpiresAt (newRecord req w)
                 = Add (clock w (tick w)) (Validity req * Minute)).
  { cbn [newRecord ExpiresAt]. f_equal. unfold effectiveValidity.
    destruct (Z.eqb_spec (Validity req) 0); [lia|].
    apply mul_minutes. unfold maxMinutes in *. lia. }
  assert (Hbefore : ExpiresAt (newRecord req w) < clock w (tick w)).
  { rewrite Hexp. unfold Add, Minute, Second, Nanosecond. lia. }
  assert (Hticks : (tick w <= createdAtTick req w)%nat).
  { unfold createdAtTick. destruct (String.eqb (Shortcode req) ""); lia. }
  repeat split; try done.
  - apply Z.lt_le_trans with (clock w (tick w)); [exact Hbefore|].
    apply Hmono, Hticks.
  - intros r2 w2 Hcode Hu Hclock Hlater.
    rewrite (redirect_run_expired r2 w2 (newRecord req w)).
    + reflexivity.
    + by rewrite Hcode.
    + reflexivity.
    + rewrite Hclock.
      apply Z.lt_le_trans with (clock w (tick w)); [exact Hbefore|].
      apply Hmono. lia.
Qed.

Lemma create_negative_validity_witness :
  status (fst (run (createShortURL
                      (postRequest "short.example"
                         (Some (body "https://example.com" (-5) "abc123"))))
                   emptyWorld))
  = StatusCreated.
Proof.
  apply (create_negative_validity
           (postRequest "short.example" (Some (body "https://example.com" (-5) "abc123")))
           emptyWorld (body "https://example.com" (-5) "abc123")).
  - reflexivity.
  - reflexivity.
  - right. reflexivity.
  - unfold maxMinutes. cbn. lia.
  - intros i j _. unfold emptyWorld, frozenClock. cbn. lia.
Defined.

(** ** Redirect: the click recorded *)

(** C4, at a client with an IPv6 address.  The redirect is served and one
    click is recorded, with the referrer and user agent of the request; but
    the address recorded is the remote address cut at its first colon,
    ["["], where the remote address without its port is ["[::1]"]. *)
Theorem redirect_ipv6_address_cut :
  fst (run (redirectShortURL (getRequest "abc123" "[::1]:54321"))
           (worldWith liveRecord []))
  = Redirect "https://example.com" StatusFound
  /\ analytics (snd (run (redirectShortURL (getRequest "abc123" "[::1]:54321"))
                         (worldWith liveRecord []))) !! "abc123"
     = Some [ {| Timestamp := someInstant;
                 Referrer := "https://ref.example/";
                 UserAgent := "curl/8.0";
                 IPAddress := "[" |} ]
  /\ stripPort "[::1]:54321" = "[::1]".
Proof. repeat split; reflexivity. Qed.

(** ** Records kept *)

(** C6, at two create requests without a custom code served within one
    second.  Both are answered 201 and both settle on the code [NgJE3mQ];
    the second one replaces the record of the first, with another original
    URL, and empties the click sequence that held one click. *)
Theorem generated_code_collision_overwrites :
  urlStore afterOneClick !! "NgJE3mQ"
  = Some {| ShortCode := "NgJE3mQ"; OriginalURL := "https://first.example";
            CreatedAt := someInstant; ExpiresAt := someInstant + 30 * Minute;
            IsActive := true |}
  /\ length (clicksOf afterOneClick "NgJE3mQ") = 1%nat
  /\ status (fst (run (createShortURL secondCreate) afterOneClick)) = StatusCreated
  /\ urlStore afterSecondCreate !! "NgJE3mQ"
     = Some {| ShortCode := "NgJE3mQ"; OriginalURL := "https://second.example";
               CreatedAt := someInstant; ExpiresAt := someInstant + 30 * Minute;
               IsActive := true |}
  /\ clicksOf afterSecondCreate "NgJE3mQ" = []
  /\ ~ keepsRecords afterOneClick afterSecondCreate.
Proof.
  assert (H1 : urlStore afterOneClick !! "NgJE3mQ"
               = Some {| ShortCode := "NgJE3mQ"; OriginalURL := "https://first.example";
                         CreatedAt := someInstant;
                         ExpiresAt := someInstant + 30 * Minute;
                         IsActive := true |}) by (vm_compute; reflexivity).
  assert (H2 : urlStore afterSecondCreate !! "NgJE3mQ"
               = Some {| ShortCode := "NgJE3mQ"; OriginalURL := "https://second.example";
                         CreatedAt := someInstant;
                         ExpiresAt := someInstant + 30 * Minute;
                         IsActive := true |}) by (vm_compute; reflexivity).
  repeat split; try (vm_compute; reflexivity); try assumption.
  intros Hkeep. destruct (Hkeep _ _ H1) as (u' & Hu' & _ & Hurl & _).
  rewrite H2 in Hu'. injection Hu' as <-. discriminate Hurl.
Qed.

(** ** The generated code *)

Lemma generateShortCode_same_second (t t' : Time) :
  Unix t = Unix t' -> generateShortCode t = generateShortCode t'.
Proof. intros Ht. unfold generateShortCode. by rewrite Ht. Qed.

(** C7, as stated, fails on the length: at a clock reading before the
    epoch the number to encode is negative, the encoder returns the empty
    string with an error, the handler drops the error, and the request is
    answered 201 with a record stored under the empty code. *)
Lemma pre_epoch_code_is_empty :
  Unix (clock preEpochWorld (S (tick preEpochWorld))) = -1
  /\ Shortcode (body "https://first.example" 0 "") = ""
  /\ status (fst (run (createShortURL firstCreate) preEpochWorld)) = StatusCreated
  /\ urlStore (snd (run (createShortURL firstCreate) preEpochWorld)) !! ""
     = Some {| ShortCode := ""; OriginalURL := "https://first.example";
               CreatedAt := - Second; ExpiresAt := - Second + 30 * Minute;
               IsActive := true |}
  /\ (String.length "" < 5)%nat.
Proof.
  split; [vm_compute; reflexivity|]. split; [reflexivity|].
  split; [vm_compute; reflexivity|]. split; [vm_compute; reflexivity|].
  cbn. lia.
Qed.

(** C7, amended.  Two create requests without a custom code whose clock
    readings for the code fall in the same Unix second store their records
    under the same short code, whatever else they carry and whatever the
    stores hold; and when that second is not before the epoch, the code has
    five characters or more. *)
Theorem generated_code_deterministic
  (r1 r2 : Request) (w1 w2 : World) (req1 req2 : ShortURLRequest) :
  Body r1 = Some req1 -> Body r2 = Some req2 ->
  validURL req1 = true -> validURL req2 = true ->
  Shortcode req1 = "" -> Shortcode req2 = "" ->
  Unix (clock w1 (S (tick w1))) = Unix (clock w2 (S (tick w2))) ->
  exists code u1 u2,
    urlStore (snd (run (createShortURL r1) w1)) !! code = Some u1 /\
    ShortCode u1 = code /\
    urlStore (snd (run (createShortURL r2) w2)) !! code = Some u2 /\
    ShortCode u2 = code /\
    (0 <= Unix (clock w1 (S (tick w1))) -> (5 <= String.length code)%nat).
Proof.
  intros Hb1 Hb2 Hv1 Hv2 He1 He2 Hsec.
  rewrite (create_run_created r1 w1 req1), (create_run_created r2 w2 req2) by auto.
  cbn [snd urlStore].
  exists (chosenCode req1 w1), (newRecord req1 w1), (newRecord req2 w2).
  assert (Hsame : chosenCode req2 w2 = chosenCode req1 w1).
  { rewrite !chosenCode_generated by done.
    symmetry. by apply generateShortCode_same_second. }
  rewrite Hsame, !lookup_insert_eq.
  split; [done|]. split; [done|]. split; [done|]. split; [exact Hsame|].
  intros Hpos. rewrite chosenCode_generated by done.
  by apply generateShortCode_length.
Qed.

Lemma generated_code_deterministic_witness :
  exists code u1 u2,
    urlStore (snd (run (createShortURL firstCreate) emptyWorld)) !! code = Some u1 /\
    ShortCode u1 = code /\
    urlStore (snd (run (createShortURL secondCreate) afterOneClick)) !! code = Some u2 /\
    ShortCode u2 = code /\
    (0 <= Unix (clock emptyWorld (S (tick emptyWorld))) -> (5 <= String.length code)%nat).
Proof.
  apply (generated_code_deterministic firstCreate secondCreate emptyWorld afterOneClick
           (body "https://first.example" 0 "") (body "https://second.example" 0 ""));
    reflexivity.
Defined.

(** The four ways [redirectShortURL] ends. *)
Lemma redirect_cases r w :
  (urlStore w !! pathShortcode r = None /\
   run (redirectShortURL r) w
   = (Error (errorBody "Short URL not found") StatusNotFound, w))
  \/ (exists u, urlStore w !! pathShortcode r = Some u /\ IsActive u = false /\
      run (redirectShortURL r) w
      = (Error (errorBody "Short URL not found") StatusNotFound, w))
  \/ (exists u, urlStore w !! pathShortcode r = Some u /\ IsActive u = true /\
      ExpiresAt u < clock w (tick w) /\
      run (redirectShortURL r) w
      = (Error (errorBody "Short URL has expired") StatusGone,
         {| urlStore := urlStore w; analytics := analytics w;
            clock := clock w; tick := S (tick w) |}))
  \/ (exists u, urlStore w !! pathShortcode r = Some u /\ IsActive u = true /\
      clock w (tick w) <= ExpiresAt u /\
      run (redirectShortURL r) w
      = (Redirect (OriginalURL u) StatusFound,
         {| urlStore := urlStore w;
            analytics :=
              <[pathShortcode r :=
                  clicksOf w (pathShortcode r) ++ [clickOf r (clock w (S (tick w)))]]>
                (analytics w);
            clock := clock w; tick := S (S (tick w)) |})).
Proof.
  destruct (urlStore w !! pathShortcode r) as [u|] eqn:Hu.
  - destruct (IsActive u) eqn:Hact.
    + destruct (Z.lt_ge_cases (ExpiresAt u) (clock w (tick w))) as [Hexp|Hlive].
      * right; right; left. exists u.
        split; [done|]. split; [done|]. split; [done|].
        by apply (redirect_run_expired r w u).
      * do 3 right. exists u.
        split; [done|]. split; [done|]. split; [done|].
        by apply (redirect_run_found r w u).
    + right; left. exists u. split; [done|]. split; [done|].
      by apply (redirect_run_inactive r w u).
  - left. split; [done|]. by apply redirect_run_absent.
Qed.

(** The click sequences after a served redirect. *)
Lemma redirect_found_clicks r w :
  let w' := {| urlStore := urlStore w;
               analytics :=
                 <[pathShortcode r :=
                     clicksOf w (pathShortcode r) ++ [clickOf r (clock w (S (tick w)))]]>
                   (analytics w);
               clock := clock w; tick := S (S (tick w)) |} in
  clicksOf w' (pathShortcode r)
  = clicksOf w (pathShortcode r) ++ [clickOf r (clock w (S (tick w)))] /\
  forall c, c <> pathShortcode r -> analytics w' !! c = analytics w !! c.
Proof.
  cbn zeta. unfold clicksOf at 1. cbn [analytics]. rewrite lookup_insert_eq.
  split; [done|]. intros c Hc. by rewrite lookup_insert_ne.
Qed.

Lemma stats_run_world r w : snd (run (getURLStats r) w) = w.
Proof.
  destruct (urlStore w !! pathShortcode r) as [u|] eqn:Hu.
  - by rewrite (stats_run_found r w u).
  - by rewrite (stats_run_absent r w).
Qed.

(** * More of the handlers *)

(** ** The answers of [createShortURL] and [redirectShortURL], case by case *)

(** X1.  A create request is answered 400, 409 or 201.  It is answered 409
    exactly when it passes the 400 checks and names a custom code that has
    a record, and 201 exactly when it passes them and names no custom code
    or one that has no record. *)
Theorem create_status_cases (r : Request) (w : World) :
  (status (fst (run (createShortURL r) w)) = StatusConflict <->
   exists req, Body r = Some req /\ validURL req = true /\
               Shortcode req <> "" /\ is_Some (urlStore w !! Shortcode req))
  /\ (status (fst (run (createShortURL r) w)) = StatusCreated <->
      exists req, Body r = Some req /\ validURL req = true /\
                  (Shortcode req = "" \/ urlStore w !! Shortcode req = None))
  /\ (status (fst (run (createShortURL r) w)) = StatusBadRequest \/
      status (fst (run (createShortURL r) w)) = StatusConflict \/
      status (fst (run (createShortURL r) w)) = StatusCreated).
Proof.
  destruct (create_cases r w)
    as [(Hb & ->)|[(req & Hb & Hv & ->)|[(req & Hb & Hv & Hne & Hin & ->)
                                        |(req & Hb & Hv & Hfree & ->)]]];
    cbn [fst snd status].
  - split; [|split; [|by left]]; (split; [done|]);
      intros (req & Hb' & _); congruence.
  - split; [|split; [|by left]]; (split; [done|]);
      intros (req' & Hb' & Hv' & _); congruence.
  - split; [|split; [|by right; left]].
    + split; [|done]. intros _. by exists req.
    + split; [done|]. intros (req' & Hb' & _ & Hfree).
      assert (req' = req) by congruence. subst req'.
      destruct Hfree as [He|Hnone]; [done|].
      rewrite Hnone in Hin. by destruct Hin.
  - split; [|split; [|by right; right]].
    + split; [done|]. intros (req' & Hb' & _ & Hne & Hin).
      assert (req' = req) by congruence. subst req'.
      destruct Hfree as [He|Hnone]; [done|].
      rewrite Hnone in Hin. by destruct Hin.
    + split; [|done]. intros _. by exists req.
Qed.

(** X2.  A redirect is answered 404, 410 or 302: 404 exactly when the code has
    no record or an inactive one; 410 exactly when the record is active and
    the clock reads strictly after its expiry; 302 exactly when the record
    is active and the clock reads its expiry instant or earlier.  At the
    expiry instant itself the redirect is still served. *)
Theorem redirect_status_cases (r : Request) (w : World) :
  (status (fst (run (redirectShortURL r) w)) = StatusNotFound <->
   urlStore w !! pathShortcode r = None \/
   exists u, urlStore w !! pathShortcode r = Some u /\ IsActive u = false)
  /\ (status (fst (run (redirectShortURL r) w)) = StatusGone <->
      exists u, urlStore w !! pathShortcode r = Some u /\ IsActive u = true /\
                ExpiresAt u < clock w (tick w))
  /\ (status (fst (run (redirectShortURL r) w)) = StatusFound <->
      exists u, urlStore w !! pathShortcode r = Some u /\ IsActive u = true /\
                clock w (tick w) <= ExpiresAt u).
Proof.
  destruct (urlStore w !! pathShortcode r) as [u|] eqn:Hu.
  - destruct (IsActive u) eqn:Hact.
    + destruct (Z.lt_ge_cases (ExpiresAt u) (clock w (tick w))) as [Hexp|Hlive].
      * rewrite (redirect_run_expired r w u) by done. cbn [fst status].
        split; [|split]; split; try done.
        -- intros [?|(u' & [= <-] & ?)]; congruence.
        -- intros _. by exists u.
        -- intros (u' & [= <-] & _ & ?). lia.
      * rewrite (redirect_run_found r w u) by done. cbn [fst status].
        split; [|split]; split; try done.
        -- intros [?|(u' & [= <-] & ?)]; congruence.
        -- intros (u' & [= <-] & _ & ?). lia.
        -- intros _. by exists u.
    + rewrite (redirect_run_inactive r w u) by done. cbn [fst status].
      split; [|split]; split; try done.
      * intros _. right. by exists u.
      * intros (u' & [= <-] & ? & _). congruence.
      * intros (u' & [= <-] & ? & _). congruence.
  - rewrite (redirect_run_absent r w) by done. cbn [fst status].
    split; [|split]; split; try done.
    + intros _. by left.
    + intros (u' & ? & _). congruence.
    + intros (u' & ? & _). congruence.
Qed.

(** ** What a redirect writes *)

(** X3.  A redirect that is served leaves the URL store as it was, appends one
    click to the code's click sequence, behind the clicks recorded before,
    and leaves the click sequences of all other codes as they were.  The
    click carries the handler's second clock reading, the request's
    referrer and user agent, and the first piece of the remote address
    split at its colons. *)
Theorem redirect_appends_click (r : Request) (w : World) (u : ShortURL) :
  urlStore w !! pathShortcode r = Some u ->
  IsActive u = true ->
  clock w (tick w) <= ExpiresAt u ->
  fst (run (redirectShortURL r) w) = Redirect (OriginalURL u) StatusFound /\
  urlStore (snd (run (redirectShortURL r) w)) = urlStore w /\
  clicksOf (snd (run (redirectShortURL r) w)) (pathShortcode r)
  = clicksOf w (pathShortcode r)
    ++ [ {| Timestamp := clock w (S (tick w));
            Referrer := Referer r;
            UserAgent := UserAgentHeader r;
            IPAddress := nth 0 (strings.Split (RemoteAddr r) ":") "" |} ] /\
  forall c, c <> pathShortcode r ->
            analytics (snd (run (redirectShortURL r) w)) !! c = analytics w !! c.
Proof.
  intros Hu Hact Hlive. rewrite (redirect_run_found r w u) by done.
  cbn [fst snd urlStore]. unfold clicksOf at 1. cbn [analytics].
  rewrite lookup_insert_eq. repeat split; try done.
  intros c Hc. by rewrite lookup_insert_ne.
Qed.

Lemma redirect_appends_click_witness :
  fst (run (redirectShortURL (getRequest "abc123" "192.0.2.1:1234"))
           (worldWith liveRecord []))
  = Redirect (OriginalURL liveRecord) StatusFound.
Proof.
  apply (redirect_appends_click (getRequest "abc123" "192.0.2.1:1234")
           (worldWith liveRecord []) liveRecord).
  - reflexivity.
  - reflexivity.
  - unfold liveRecord, worldWith, frozenClock, Minute, Second, Nanosecond. cbn. lia.
Defined.

(** X4.  A redirect that is not served (404 or 410) writes to neither store: no
    click is recorded for an unknown, inactive or expired code. *)
Theorem redirect_refused_writes_nothing (r : Request) (w : World) :
  status (fst (run (redirectShortURL r) w)) <> StatusFound ->
  sameStores w (snd (run (redirectShortURL r) w)).
Proof.
  intros Hst.
  destruct (urlStore w !! pathShortcode r) as [u|] eqn:Hu.
  - destruct (IsActive u) eqn:Hact.
    + destruct (Z.lt_ge_cases (ExpiresAt u) (clock w (tick w))) as [Hexp|Hlive].
      * by rewrite (redirect_run_expired r w u).
      * rewrite (redirect_run_found r w u) in Hst by done. by cbn in Hst.
    + by rewrite (redirect_run_inactive r w u).
  - by rewrite (redirect_run_absent r w).
Qed.

Lemma redirect_refused_writes_nothing_witness :
  sameStores (worldWith expiredRecord [])
    (snd (run (redirectShortURL (getRequest "abc123" "192.0.2.1:1234"))
              (worldWith expiredRecord []))).
Proof.
  apply (redirect_refused_writes_nothing (getRequest "abc123" "192.0.2.1:1234")
           (worldWith expiredRecord [])).
  vm_compute. discriminate.
Defined.

(** ** The address a click records *)

Lemma Split_no_colon s : hasColon s = false -> strings.Split s ":" = [s].
Proof.
  induction s as [|c s IH]; cbn; [done|].
  intros Hc. apply orb_false_iff in Hc as [Hc Hs].
  rewrite Hc, (IH Hs). reflexivity.
Qed.

Lemma Split_first_piece host rest :
  hasColon host = false ->
  nth 0 (strings.Split (host +:+ ":" +:+ rest) ":") "" = host.
Proof.
  induction host as [|c host IH]; [done|].
  change (String c host +:+ ":" +:+ rest) with (String c (host +:+ ":" +:+ rest)).
  cbn [hasColon strings.Split].
  intros Hc. apply orb_false_iff in Hc as [Hc Hs].
  rewrite Hc. specialize (IH Hs).
  destruct (strings.Split (host +:+ ":" +:+ rest) ":") as [|piece pieces];
    cbn in *; by rewrite IH.
Qed.

Lemma stripPort_host_port host port :
  hasColon host = false -> hasColon port = false ->
  stripPort (host +:+ ":" +:+ port) = host.
Proof.
  intros Hh Hp. induction host as [|c host IH].
  - change ("" +:+ ":" +:+ port) with (String ":" port).
    cbn [stripPort]. by rewrite Hp.
  - change (String c host +:+ ":" +:+ port) with (String c (host +:+ ":" +:+ port)).
    cbn [hasColon stripPort] in *. apply orb_false_iff in Hh as [Hc Hs].
    rewrite Hc. cbn [andb]. by rewrite (IH Hs).
Qed.

(** X5.  The address recorded with a served redirect is the remote address up
    to its first colon.  For a remote address [host:port] whose host has no
    colon that is the host, which is the remote address without its port
    when the port has no colon either; for a remote address without any
    colon it is the whole address. *)
Theorem redirect_records_host (r : Request) (w : World) (u : ShortURL) :
  urlStore w !! pathShortcode r = Some u ->
  IsActive u = true ->
  clock w (tick w) <= ExpiresAt u ->
  exists c,
    clicksOf (snd (run (redirectShortURL r) w)) (pathShortcode r)
    = clicksOf w (pathShortcode r) ++ [c] /\
    (forall host port,
       RemoteAddr r = host +:+ ":" +:+ port -> hasColon host = false ->
       IPAddress c = host /\
       (hasColon port = false -> IPAddress c = stripPort (RemoteAddr r))) /\
    (hasColon (RemoteAddr r) = false -> IPAddress c = RemoteAddr r).
Proof.
  intros Hu Hact Hlive. rewrite (redirect_run_found r w u) by done. cbn [snd].
  destruct (redirect_found_clicks r w) as [Hclicks _]. cbn zeta in Hclicks.
  eexists. split; [exact Hclicks|]. cbn [clickOf IPAddress]. split.
  - intros host port Haddr Hhost. rewrite Haddr.
    rewrite (Split_first_piece host port Hhost). split; [done|].
    intros Hport. by rewrite stripPort_host_port.
  - intros Hnone. by rewrite (Split_no_colon _ Hnone).
Qed.

Lemma redirect_records_host_witness :
  exists c,
    clicksOf (snd (run (redirectShortURL (getRequest "abc123" "192.0.2.1:1234"))
                       (worldWith liveRecord []))) "abc123"
    = [] ++ [c] /\ IPAddress c = "192.0.2.1".
Proof.
  destruct (redirect_records_host (getRequest "abc123" "192.0.2.1:1234")
              (worldWith liveRecord []) liveRecord eq_refl eq_refl)
    as (c & Hc & Hhost & _).
  - unfold liveRecord, worldWith, frozenClock, Minute, Second, Nanosecond. cbn. lia.
  - exists c. split; [exact Hc|].
    apply (Hhost "192.0.2.1" "1234"); reflexivity.
Defined.

(** ** Handlers in sequence *)

(** X6.  Create, then redirect.  After a create request answered 201, a redirect
    for the code in the answer's short link, made while the record stored
    is still there and the clock reads its expiry instant or earlier, is
    answered 302 with the URL of the create request. *)
Theorem create_then_redirect (r : Request) (w : World) (req : ShortURLRequest) :
  Body r = Some req ->
  status (fst (run (createShortURL r) w)) = StatusCreated ->
  exists code u,
    urlStore (snd (run (createShortURL r) w)) !! code = Some u /\
    (exists expiry,
       fst (run (createShortURL r) w)
       = Created {| ShortLink := "http://" +:+ linkHost r +:+ "/" +:+ code;
                    Expiry := expiry |}) /\
    forall r2 w2,
      pathShortcode r2 = code ->
      urlStore w2 !! code = Some u ->
      clock w2 (tick w2) <= ExpiresAt u ->
      fst (run (redirectShortURL r2) w2) = Redirect (URL req) StatusFound.
Proof.
  intros Hb Hst.
  destruct (create_created_inv r w Hst) as (req' & Hb' & _ & _ & ->).
  assert (req' = req) by congruence. subst req'.
  cbn [fst snd urlStore]. exists (chosenCode req w), (newRecord req w).
  rewrite lookup_insert_eq. split; [done|]. split; [by eexists|].
  intros r2 w2 Hcode Hu Hlive.
  rewrite (redirect_run_found r2 w2 (newRecord req w)); try done.
  by rewrite Hcode.
Qed.

Lemma create_then_redirect_witness :
  fst (run (redirectShortURL (getRequest "NgJE3mQ" "192.0.2.1:1234")) afterFirstCreate)
  = Redirect "https://first.example" StatusFound.
Proof.
  destruct (create_then_redirect firstCreate emptyWorld
              (body "https://first.example" 0 "") eq_refl eq_refl)
    as (code & u & Hu & (expiry & Hlink) & Hredirect).
  assert (code = "NgJE3mQ") as ->.
  { vm_compute in Hlink. by injection Hlink as <- _. }
  apply Hredirect.
  - reflexivity.
  - exact Hu.
  - change (snd (run (createShortURL firstCreate) emptyWorld)) with afterFirstCreate in Hu.
    vm_compute in Hu. injection Hu as <-. vm_compute. discriminate.
Defined.

(** X7.  Create, then stats.  Right after a create request answered 201, the
    stats of its code show the URL of the request, the timestamps of the
    record stored, and no click, also when the code held clicks before. *)
Theorem create_then_stats (r : Request) (w : World) (req : ShortURLRequest) :
  Body r = Some req ->
  status (fst (run (createShortURL r) w)) = StatusCreated ->
  exists code u,
    urlStore (snd (run (createShortURL r) w)) !! code = Some u /\
    forall r2,
      pathShortcode r2 = code ->
      fst (run (getURLStats r2) (snd (run (createShortURL r) w)))
      = Stats {| URLStats.OriginalURL := URL req;
                 URLStats.CreatedAt := CreatedAt u;
                 URLStats.ExpiresAt := ExpiresAt u;
                 URLStats.TotalClicks := 0;
                 URLStats.ClickDetails := [] |}.
Proof.
  intros Hb Hst.
  destruct (create_created_inv r w Hst) as (req' & Hb' & _ & _ & Hrun).
  assert (req' = req) by congruence. subst req'.
  exists (chosenCode req w), (newRecord req w).
  assert (Hu : urlStore (snd (run (createShortURL r) w)) !! chosenCode req w
               = Some (newRecord req w)).
  { rewrite Hrun. cbn [snd urlStore]. apply lookup_insert_eq. }
  split; [exact Hu|]. intros r2 Hcode. rewrite <- Hcode in Hu.
  rewrite (stats_run_found r2 _ _ Hu). cbn [fst].
  unfold clicksOf. rewrite Hrun. cbn [snd analytics].
  rewrite Hcode, lookup_insert_eq. reflexivity.
Qed.

Lemma create_then_stats_witness :
  exists code u,
    urlStore afterSecondCreate !! code = Some u /\
    forall r2,
      pathShortcode r2 = code ->
      fst (run (getURLStats r2) afterSecondCreate)
      = Stats {| URLStats.OriginalURL := "https://second.example";
                 URLStats.CreatedAt := CreatedAt u;
                 URLStats.ExpiresAt := ExpiresAt u;
                 URLStats.TotalClicks := 0;
                 URLStats.ClickDetails := [] |}.
Proof.
  apply (create_then_stats secondCreate afterOneClick
           (body "https://second.example" 0 "")); reflexivity.
Defined.

(** X8.  Redirect, then stats.  After a served redirect the stats of the code
    count one click more than the code had, and list the new click last,
    behind the earlier ones in the order they were recorded. *)
Theorem redirect_then_stats (r r2 : Request) (w : World) (u : ShortURL) :
  urlStore w !! pathShortcode r = Some u ->
  IsActive u = true ->
  clock w (tick w) <= ExpiresAt u ->
  pathShortcode r2 = pathShortcode r ->
  fst (run (getURLStats r2) (snd (run (redirectShortURL r) w)))
  = Stats {| URLStats.OriginalURL := OriginalURL u;
             URLStats.CreatedAt := CreatedAt u;
             URLStats.ExpiresAt := ExpiresAt u;
             URLStats.TotalClicks := S (length (clicksOf w (pathShortcode r)));
             URLStats.ClickDetails :=
               clicksOf w (pathShortcode r)
               ++ [clickOf r (clock w (S (tick w)))] |}.
Proof.
  intros Hu Hact Hlive Hcode. rewrite (redirect_run_found r w u) by done. cbn [snd].
  destruct (redirect_found_clicks r w) as [Hclicks _]. cbn zeta in Hclicks.
  rewrite (stats_run_found r2 _ u) by (by rewrite Hcode). cbn [fst].
  rewrite Hcode, Hclicks, length_app. cbn [length].
  rewrite Nat.add_1_r. reflexivity.
Qed.

Lemma redirect_then_stats_witness :
  fst (run (getURLStats (getRequest "abc123" "192.0.2.9:80"))
           (snd (run (redirectShortURL (getRequest "abc123" "192.0.2.1:1234"))
                     (worldWith liveRecord []))))
  = Stats {| URLStats.OriginalURL := "https://example.com";
             URLStats.CreatedAt := someInstant;
             URLStats.ExpiresAt := someInstant + 30 * Minute;
             URLStats.TotalClicks := 1;
             URLStats.ClickDetails :=
               [clickOf (getRequest "abc123" "192.0.2.1:1234") someInstant] |}.
Proof.
  apply (redirect_then_stats (getRequest "abc123" "192.0.2.1:1234")
           (getRequest "abc123" "192.0.2.9:80") (worldWith liveRecord []) liveRecord).
  - reflexivity.
  - reflexivity.
  - unfold liveRecord, worldWith, frozenClock, Minute, Second, Nanosecond. cbn. lia.
  - reflexivity.
Defined.

(** ** What a create request writes *)

(** X9.  A create request that is not answered 201 writes to neither store.
    One that is answered 201 writes under one code only: it stores a record
    there, with that code as its short code, and an empty click sequence;
    the records and click sequences of all other codes stay as they
    were. *)
Theorem create_writes_one_code (r : Request) (w : World) :
  (status (fst (run (createShortURL r) w)) <> StatusCreated ->
   sameStores w (snd (run (createShortURL r) w)))
  /\ (status (fst (run (createShortURL r) w)) = StatusCreated ->
      exists code u,
        urlStore (snd (run (createShortURL r) w)) !! code = Some u /\
        ShortCode u = code /\ IsActive u = true /\
        analytics (snd (run (createShortURL r) w)) !! code = Some [] /\
        forall c, c <> code ->
          urlStore (snd (run (createShortURL r) w)) !! c = urlStore w !! c /\
          analytics (snd (run (createShortURL r) w)) !! c = analytics w !! c).
Proof.
  split.
  - destruct (create_cases r w)
      as [(Hb & ->)|[(req & Hb & Hv & ->)|[(req & Hb & Hv & Hne & Hin & ->)
                                          |(req & Hb & Hv & Hfree & ->)]]];
      cbn [fst snd status]; done.
  - intros Hst. destruct (create_created_inv r w Hst) as (req & _ & _ & _ & ->).
    cbn [snd urlStore analytics]. exists (chosenCode req w), (newRecord req w).
    rewrite !lookup_insert_eq. repeat split; try done.
    + by rewrite lookup_insert_ne.
    + by rewrite lookup_insert_ne.
Qed.

(** ** Records kept: the operations that do keep them *)

Lemma keepsRecords_same w w' : sameStores w w' -> keepsRecords w w'.
Proof.
  intros [Hus Han] c u Hc. exists u. unfold clicksOf. rewrite Hus, Han. done.
Qed.

(** X10.  Redirect and stats requests keep every record, with its short code and
    original URL, and keep the clicks recorded so far at the front of each
    click sequence. *)
Theorem redirect_and_stats_keep_records (r : Request) (w : World) :
  keepsRecords w (snd (run (redirectShortURL r) w)) /\
  keepsRecords w (snd (run (getURLStats r) w)).
Proof.
  split.
  - destruct (redirect_cases r w)
      as [(_ & ->)|[(u0 & _ & _ & ->)|[(u0 & _ & _ & _ & ->)|(u0 & _ & _ & _ & ->)]]];
      cbn [snd]; try (by apply keepsRecords_same).
    intros c u Hc. exists u.
    destruct (redirect_found_clicks r w) as [Hclicks Hrest]. cbn zeta in *.
    repeat split; try done.
    destruct (decide (c = pathShortcode r)) as [->|Hne].
    + rewrite Hclicks. by apply prefix_app_r.
    + unfold clicksOf. by rewrite Hrest.
  - rewrite stats_run_world. by apply keepsRecords_same.
Qed.

(** [createShortURL] holds the read lock for its existence check only
    (lines 95-97) and takes the write lock later (line 122): other requests
    may run in between.  The handler is therefore also given in two
    sections, the decision (lines 71-111) and the write with the answer
    (lines 113-140), with what the first passes on to the second. *)
Record PendingCreate := {
  pendingCode : string;
  pendingURL : string;
  pendingExpiresAt : Time
}.

Definition createDecide (r : Request) : Handler PendingCreate :=
  match Body r with
  | None => fail (errorBody "Invalid request body") StatusBadRequest
  | Some req =>
      if negb (strings.HasPrefix (URL req) "http://")
         && negb (strings.HasPrefix (URL req) "https://")
      then fail (errorBody "URL must start with http:// or https://") StatusBadRequest
      else
        let validity := if Validity req =? 0 then 30 else Validity req in
        let! now := Now in
        let expiresAt := Add now (mul validity Minute) in
        let! shortCode :=
          (if negb (String.eqb (Shortcode req) "") then
             let! found := lookupURL (Shortcode req) in
             if snd found
             then fail (errorBody "Shortcode already in use") StatusConflict
             else ret (Shortcode req)
           else
             let! now := Now in
             ret (generateShortCode now)) in
        ret {| pendingCode := shortCode; pendingURL := URL req;
               pendingExpiresAt := expiresAt |}
  end.

Definition createStore (r : Request) (p : PendingCreate) : Handler Response :=
  let! createdAt := Now in
  let newURL :=
    {| ShortCode := pendingCode p;
       OriginalURL := pendingURL p;
       CreatedAt := createdAt;
       ExpiresAt := pendingExpiresAt p;
       IsActive := true |} in
  let! _ := storeURL (pendingCode p) newURL in
  let! _ := storeClicks (pendingCode p) [] in
  let host := if String.eqb (Host r) "" then "localhost:8080" else Host r in
  ret (Created {| ShortLink := "http://" +:+ host +:+ "/" +:+ pendingCode p;
                  Expiry := Format (pendingExpiresAt p) RFC3339 |}).

(** The two sections with the requests [others] served between them. *)
Definition createInterleaved (r : Request) (others : World -> World) (w : World)
  : Response * World :=
  match createDecide r w with
  | (inl resp, w1) => (resp, w1)
  | (inr p, w1) => run (createStore r p) (others w1)
  end.

(** With nothing in between, the two sections are [createShortURL]. *)
Lemma createShortURL_sections r w :
  run (createShortURL r) w = createInterleaved r (fun w1 => w1) w.
Proof.
  unfold createInterleaved, createShortURL, createDecide, createStore.
  destruct (Body r) as [req|]; [|reflexivity].
  destruct (negb (strings.HasPrefix (URL req) "http://")
            && negb (strings.HasPrefix (URL req) "https://")); [reflexivity|].
  destruct (String.eqb (Shortcode req) ""); step_handler.
  - cbn [pendingCode pendingURL pendingExpiresAt]. reflexivity.
  - destruct (bool_decide (is_Some (urlStore w !! Shortcode req)));
      cbn [pendingCode pendingURL pendingExpiresAt]; reflexivity.
Qed.

(** The decision section writes to neither store, and a custom code it
    passes on had no record when it looked. *)
Lemma createDecide_reads r w :
  sameStores w (snd (createDecide r w)) /\
  forall p req,
    fst (createDecide r w) = inr p -> Body r = Some req -> Shortcode req <> "" ->
    pendingCode p = Shortcode req /\ urlStore w !! pendingCode p = None.
Proof.
  unfold createDecide.
  destruct (Body r) as [req|]; [|by split].
  destruct (negb (strings.HasPrefix (URL req) "http://")
            && negb (strings.HasPrefix (URL req) "https://")); [by split|].
  destruct (String.eqb (Shortcode req) "") eqn:He; step_handler.
  - split; [done|]. intros p req' _ [= <-] Hne.
    apply String.eqb_eq in He. done.
  - destruct (urlStore w !! Shortcode req) as [u|] eqn:Hu.
    + rewrite bool_decide_eq_true_2 by eauto. by split.
    + rewrite bool_decide_eq_false_2 by (by intros [? ?]).
      split; [done|]. intros p req' [= <-] [= <-] _. by cbn.
Qed.

(** Two create requests naming the same custom code, the second deciding
    before the first has written: both are answered 201, and the write of
    the first replaces the record the second request has stored meanwhile
    and the click it has received. *)
Example interleaved_custom_creates_overwrite :
  let first :=
    postRequest "short.example" (Some (body "https://first.example" 0 "abc123")) in
  let second :=
    postRequest "short.example" (Some (body "https://second.example" 0 "abc123")) in
  let others w1 :=
    snd (run (redirectShortURL (getRequest "abc123" "192.0.2.1:1234"))
             (snd (run (createShortURL second) w1))) in
  status (fst (run (createShortURL second) (snd (createDecide first emptyWorld))))
  = StatusCreated
  /\ OriginalURL <$> urlStore (others (snd (createDecide first emptyWorld))) !! "abc123"
     = Some "https://second.example"
  /\ length (clicksOf (others (snd (createDecide first emptyWorld))) "abc123") = 1%nat
  /\ status (fst (createInterleaved first others emptyWorld)) = StatusCreated
  /\ OriginalURL <$> urlStore (snd (createInterleaved first others emptyWorld)) !! "abc123"
     = Some "https://first.example"
  /\ clicksOf (snd (createInterleaved first others emptyWorld)) "abc123" = [].
Proof.
  cbn zeta.
  split; [vm_compute; reflexivity|]. split; [vm_compute; reflexivity|].
  split; [vm_compute; reflexivity|]. split; [vm_compute; reflexivity|].
  split; vm_compute; reflexivity.
Qed.

(** X11.  The write section of a create request keeps every record, with
    its short code and original URL, and keeps the clicks recorded so far
    at the front of every click sequence, provided the code it writes has
    no record in the world it writes to, whatever other requests have made
    of that world since the decision section ran.  The decision section
    writes nothing, and a custom code it passes on had no record when it
    looked; so a create request that nothing comes between keeps the
    records whenever it names a custom code. *)
Theorem create_write_keeps_records (r : Request) (w : World) :
  (forall p wm,
     urlStore wm !! pendingCode p = None ->
     keepsRecords wm (snd (run (createStore r p) wm)))
  /\ (forall others p,
        fst (createDecide r w) = inr p ->
        urlStore (others (snd (createDecide r w))) !! pendingCode p = None ->
        keepsRecords (others (snd (createDecide r w)))
                     (snd (createInterleaved r others w)))
  /\ sameStores w (snd (createDecide r w))
  /\ ((forall req, Body r = Some req -> Shortcode req <> "") ->
      keepsRecords w (snd (run (createShortURL r) w))).
Proof.
  assert (Hstore : forall p wm,
             urlStore wm !! pendingCode p = None ->
             keepsRecords wm (snd (run (createStore r p) wm))).
  { intros p wm Hnone c u Hc. exists u.
    assert (c <> pendingCode p) by congruence.
    unfold createStore, clicksOf. step_handler.
    rewrite !lookup_insert_ne by done. done. }
  assert (Hinter : forall others p,
             fst (createDecide r w) = inr p ->
             urlStore (others (snd (createDecide r w))) !! pendingCode p = None ->
             keepsRecords (others (snd (createDecide r w)))
                          (snd (createInterleaved r others w))).
  { intros others p Hp Hnone. unfold createInterleaved.
    destruct (createDecide r w) as [[resp|p'] w1]; cbn [fst snd] in *; [done|].
    injection Hp as ->. by apply Hstore. }
  destruct (createDecide_reads r w) as [Hsame Hcustom].
  split; [exact Hstore|]. split; [exact Hinter|]. split; [exact Hsame|].
  intros Hnamed. rewrite createShortURL_sections.
  destruct (createDecide r w) as [[resp|p] w1] eqn:Hdec.
  - unfold createInterleaved. rewrite Hdec. cbn [snd] in *.
    by apply keepsRecords_same.
  - intros c u Hc. destruct Hsame as [Hus Han]. cbn [snd] in Hus, Han.
    destruct (Body r) as [req|] eqn:Hb.
    + destruct (Hcustom p req eq_refl eq_refl (Hnamed req eq_refl)) as [_ Hnone].
      assert (Hnone1 : urlStore w1 !! pendingCode p = None) by (by rewrite Hus).
      assert (Hc1 : urlStore w1 !! c = Some u) by (by rewrite Hus).
      specialize (Hinter (fun w1 => w1) p eq_refl). cbn [snd] in Hinter.
      destruct (Hinter Hnone1 c u Hc1) as (u' & Hu' & Hcode & Hurl & Hpre).
      exists u'. repeat split; try done.
      unfold clicksOf in *. by rewrite <- Han.
    + unfold createDecide in Hdec. rewrite Hb in Hdec. discriminate Hdec.
Qed.

(** ** The validities whose expiry is exact *)

Lemma wrap64_range z : - 2 ^ 63 <= wrap64 z < 2 ^ 63.
Proof. unfold wrap64. pose proof (Z.mod_pos_bound (z + 2 ^ 63) (2 ^ 64)). lia. Qed.

(** X12.  For a create request answered 201, the record stored expires the
    validity's number of minutes (30 for zero) after the handler's first
    clock reading exactly when that number lies between [- maxMinutes] and
    [maxMinutes]; outside of that range the count of nanoseconds wraps
    around. *)
Theorem create_expiry_exact_iff (r : Request) (w : World) (req : ShortURLRequest) :
  Body r = Some req ->
  status (fst (run (createShortURL r) w)) = StatusCreated ->
  exists code u,
    urlStore (snd (run (createShortURL r) w)) !! code = Some u /\
    (ExpiresAt u
     = Add (clock w (tick w))
           ((if Validity req =? 0 then 30 else Validity req) * Minute)
     <-> - maxMinutes <= (if Validity req =? 0 then 30 else Validity req) <= maxMinutes).
Proof.
  intros Hb Hst.
  destruct (create_created_inv r w Hst) as (req' & Hb' & _ & _ & ->).
  assert (req' = req) by congruence. subst req'.
  cbn [snd urlStore]. exists (chosenCode req w), (newRecord req w).
  rewrite lookup_insert_eq. split; [done|].
  cbn [newRecord ExpiresAt]. unfold effectiveValidity.
  set (v := if Validity req =? 0 then 30 else Validity req). split.
  - intros Heq. unfold Add in Heq.
    assert (Hmul : mul v Minute = v * Minute) by lia.
    pose proof (wrap64_range (v * Minute)) as Hrange.
    unfold mul in Hmul. rewrite Hmul in Hrange.
    unfold maxMinutes, Minute, Second, Nanosecond in *. lia.
  - intros Hv. by rewrite mul_minutes.
Qed.

Lemma create_expiry_exact_iff_witness :
  exists code u,
    urlStore (snd (run (createShortURL
                          (postRequest "short.example"
                             (Some (body "https://example.com" 153722868 "abc123"))))
                       emptyWorld)) !! code = Some u /\
    (ExpiresAt u = Add (clock emptyWorld (tick emptyWorld)) (153722868 * Minute)
     <-> - maxMinutes <= 153722868 <= maxMinutes).
Proof.
  apply (create_expiry_exact_iff
           (postRequest "short.example"
              (Some (body "https://example.com" 153722868 "abc123")))
           emptyWorld (body "https://example.com" 153722868 "abc123"));
    reflexivity.
Defined.

(** ** Histories of requests *)

(** The three routes [main] registers, and the handler each one names. *)
Inductive Endpoint : Type :=
| PostShortURLs        (* POST /shorturls *)
| GetShortcode         (* GET /{shortcode} *)
| GetStats.            (* GET /shorturls/{shortcode} *)

Definition handlerOf (e : Endpoint) : Request -> Handler Response :=
  match e with
  | PostShortURLs => createShortURL
  | GetShortcode => redirectShortURL
  | GetStats => getURLStats
  end.

(** [reaches w0 w]: from the world [w0] the process gets to [w] by running
    handlers one after the other, with any number of clock readings by
    others (the logging middleware reads the clock too) in between. *)
Inductive reaches (w0 : World) : World -> Prop :=
| reaches_start : reaches w0 w0
| reaches_handler w e r :
    reaches w0 w -> reaches w0 (snd (run (handlerOf e r) w))
| reaches_clock w :
    reaches w0 w -> reaches w0 (snd (Now w)).

(** The URL check of [createShortURL], on a URL. *)
Definition httpURL (url : string) : bool :=
  strings.HasPrefix url "http://" || strings.HasPrefix url "https://".

(** The two stores agree: every record sits under its own short code, is
    active, holds a URL that passed the check, and has a click sequence;
    and there is no click sequence without a record. *)
Definition storesAgree (w : World) : Prop :=
  (forall c u, urlStore w !! c = Some u ->
     ShortCode u = c /\ IsActive u = true /\ httpURL (OriginalURL u) = true /\
     is_Some (analytics w !! c))
  /\ (forall c, is_Some (analytics w !! c) -> is_Some (urlStore w !! c)).

Lemma storesAgree_same w w' : sameStores w w' -> storesAgree w -> storesAgree w'.
Proof. intros [Hus Han]. unfold storesAgree. by rewrite Hus, Han. Qed.

Lemma storesAgree_create r w : storesAgree w -> storesAgree (snd (run (createShortURL r) w)).
Proof.
  intros Hw.
  destruct (create_cases r w)
    as [(Hb & ->)|[(req & Hb & Hv & ->)|[(req & Hb & Hv & Hne & Hin & ->)
                                        |(req & Hb & Hv & Hfree & ->)]]];
    cbn [snd]; try (by apply (storesAgree_same w)).
  destruct Hw as [Hrec Hclicks]. split; cbn [urlStore analytics].
  - intros c u. destruct (decide (c = chosenCode req w)) as [->|Hne].
    + rewrite !lookup_insert_eq. intros [= <-]. by repeat split.
    + rewrite !lookup_insert_ne by done. apply Hrec.
  - intros c. destruct (decide (c = chosenCode req w)) as [->|Hne].
    + rewrite !lookup_insert_eq. eauto.
    + rewrite !lookup_insert_ne by done. apply Hclicks.
Qed.

Lemma storesAgree_redirect r w :
  storesAgree w -> storesAgree (snd (run (redirectShortURL r) w)).
Proof.
  intros Hw.
  destruct (redirect_cases r w)
    as [(_ & ->)|[(u0 & _ & _ & ->)|[(u0 & _ & _ & _ & ->)|(u0 & Hu0 & _ & _ & ->)]]];
    cbn [snd]; try (by apply (storesAgree_same w)).
  destruct Hw as [Hrec Hclicks]. split; cbn [urlStore analytics].
  - intros c u Hu. destruct (Hrec c u Hu) as (? & ? & ? & ?).
    repeat split; try done.
    destruct (decide (c = pathShortcode r)) as [->|Hne].
    + rewrite lookup_insert_eq. eauto.
    + by rewrite lookup_insert_ne.
  - intros c. destruct (decide (c = pathShortcode r)) as [->|Hne].
    + intros _. eauto.
    + rewrite lookup_insert_ne by done. apply Hclicks.
Qed.

Lemma storesAgree_step e r w :
  storesAgree w -> storesAgree (snd (run (handlerOf e r) w)).
Proof.
  destruct e; cbn [handlerOf].
  - apply storesAgree_create.
  - apply storesAgree_redirect.
  - by rewrite stats_run_world.
Qed.

Lemma storesAgree_reaches w0 w : storesAgree w0 -> reaches w0 w -> storesAgree w.
Proof.
  intros H0 Hreach. induction Hreach as [|w e r _ IH|w _ IH].
  - done.
  - by apply storesAgree_step.
  - by apply (storesAgree_same w).
Qed.

Lemma storesAgree_empty w : urlStore w = ∅ -> analytics w = ∅ -> storesAgree w.
Proof.
  intros Hus Han. split.
  - intros c u. by rewrite Hus, lookup_empty.
  - intros c. rewrite Han, lookup_empty. by intros [? ?].
Qed.

(** X13.  Started with both maps empty, as the program starts them, the process
    only gets to worlds in which the two stores agree: every record sits
    under its own short code, is active, holds a URL that begins with
    [http://] or [https://], and has a click sequence, and every click
    sequence belongs to a record. *)
Theorem reachable_stores_agree (w0 w : World) :
  urlStore w0 = ∅ ->
  analytics w0 = ∅ ->
  reaches w0 w ->
  storesAgree w.
Proof.
  intros Hus Han Hreach.
  apply (storesAgree_reaches w0); [by apply storesAgree_empty|done].
Qed.

Lemma reaches_afterSecondCreate : reaches emptyWorld afterSecondCreate.
Proof.
  apply (reaches_handler emptyWorld afterOneClick PostShortURLs secondCreate).
  apply (reaches_handler emptyWorld afterFirstCreate GetShortcode
           (getRequest "NgJE3mQ" "192.0.2.1:1234")).
  apply (reaches_handler emptyWorld emptyWorld PostShortURLs firstCreate).
  apply reaches_start.
Defined.

Lemma reachable_stores_agree_witness : storesAgree afterSecondCreate.
Proof.
  apply (reachable_stores_agree emptyWorld afterSecondCreate).
  - reflexivity.
  - reflexivity.
  - exact reaches_afterSecondCreate.
Defined.

(** No handler deletes a record. *)
Lemma records_stay_step e r w c :
  is_Some (urlStore w !! c) -> is_Some (urlStore (snd (run (handlerOf e r) w)) !! c).
Proof.
  intros Hc. destruct e; cbn [handlerOf].
  - destruct (create_cases r w)
      as [(Hb & ->)|[(req & Hb & Hv & ->)|[(req & Hb & Hv & Hne & Hin & ->)
                                          |(req & Hb & Hv & Hfree & ->)]]];
      cbn [snd urlStore]; try done.
    destruct (decide (c = chosenCode req w)) as [->|Hne].
    + rewrite lookup_insert_eq. eauto.
    + by rewrite lookup_insert_ne.
  - destruct (redirect_cases r w)
      as [(_ & ->)|[(u0 & _ & _ & ->)|[(u0 & _ & _ & _ & ->)|(u0 & _ & _ & _ & ->)]]];
      cbn [snd urlStore]; done.
  - by rewrite stats_run_world.
Qed.

Lemma records_stay w0 w c :
  reaches w0 w -> is_Some (urlStore w0 !! c) -> is_Some (urlStore w !! c).
Proof.
  intros Hreach H0. induction Hreach as [|w e r _ IH|w _ IH].
  - done.
  - by apply records_stay_step.
  - done.
Qed.

(** X14.  A code that has a record keeps having one whatever requests follow, and
    so, whether or not that record has expired, every later create request
    that passes the 400 checks and names the code as its custom code is
    answered 409. *)
Theorem taken_code_refused_for_good (w0 w : World) (c : string) :
  is_Some (urlStore w0 !! c) ->
  reaches w0 w ->
  is_Some (urlStore w !! c) /\
  forall r req,
    Body r = Some req -> validURL req = true -> Shortcode req = c -> c <> "" ->
    status (fst (run (createShortURL r) w)) = StatusConflict.
Proof.
  intros H0 Hreach. pose proof (records_stay w0 w c Hreach H0) as Hc.
  split; [done|]. intros r req Hb Hv <- Hne.
  by rewrite (create_run_conflict r w req).
Qed.

Lemma taken_code_refused_for_good_witness :
  is_Some (urlStore (snd (run (redirectShortURL (getRequest "abc123" "192.0.2.1:1234"))
                              (worldWith expiredRecord []))) !! "abc123").
Proof.
  apply (taken_code_refused_for_good (worldWith expiredRecord [])
           (snd (run (redirectShortURL (getRequest "abc123" "192.0.2.1:1234"))
                     (worldWith expiredRecord []))) "abc123").
  - by exists expiredRecord.
  - apply (reaches_handler _ _ GetShortcode). apply reaches_start.
Defined.

(** X15.  Started with both maps empty, the process never holds an inactive
    record, so a redirect is answered 404 exactly when the code has no
    record. *)
Theorem reachable_redirect_not_found_iff (w0 w : World) (r : Request) :
  urlStore w0 = ∅ ->
  analytics w0 = ∅ ->
  reaches w0 w ->
  (status (fst (run (redirectShortURL r) w)) = StatusNotFound <->
   urlStore w !! pathShortcode r = None).
Proof.
  intros Hus Han Hreach.
  assert (Hagree : storesAgree w)
    by (apply (storesAgree_reaches w0); [by apply storesAgree_empty|done]).
  destruct Hagree as [Hrec _].
  destruct (redirect_cases r w)
    as [(Hnone & ->)|[(u & Hu & Hact & ->)
                     |[(u & Hu & _ & _ & ->)|(u & Hu & _ & _ & ->)]]];
    cbn [fst status].
  - done.
  - destruct (Hrec _ _ Hu) as (_ & Hact' & _). congruence.
  - split; [done|]. rewrite Hu. done.
  - split; [done|]. rewrite Hu. done.
Qed.

Lemma reachable_redirect_not_found_iff_witness :
  status (fst (run (redirectShortURL (getRequest "nope" "192.0.2.1:1234"))
                   afterSecondCreate)) = StatusNotFound
  <-> urlStore afterSecondCreate !! "nope" = None.
Proof.
  apply (reachable_redirect_not_found_iff emptyWorld afterSecondCreate
           (getRequest "nope" "192.0.2.1:1234")).
  - reflexivity.
  - reflexivity.
  - exact reaches_afterSecondCreate.
Defined.

(** ** The logging middleware *)

(** [t.Sub(u)]: the duration between two instants, kept within the range of
    an [int64]. *)
Definition Sub (t u : Time) : Duration :=
  Z.max (- 2 ^ 63) (Z.min (2 ^ 63 - 1) (t - u)).

(** What [log.Printf("%s %s %v", r.Method, r.URL.Path, time.Since(start))]
    is given to print. *)
Record LogEntry := {
  Method : string;
  Path : string;
  Elapsed : Duration
}.

(** [(l *CustomLogger) ServeHTTP(w, r)] of main.go, for the wrapped handler
    [handler] and a request with the method and path given: the clock is
    read, the handler runs, and the time since the first reading is logged
    ([time.Since] reads the clock once more). *)
Definition ServeHTTP (handler : Request -> Handler Response)
    (method path : string) (r : Request) (w : World)
  : Response * World * LogEntry :=
  let start := clock w (tick w) in
  let served := run (handler r) (snd (Now w)) in
  let now := clock (snd served) (tick (snd served)) in
  (fst served, snd (Now (snd served)),
   {| Method := method; Path := path; Elapsed := Sub now start |}).

(** A handler reads the clock, never sets it, and only moves on in it. *)
Lemma handler_clock e r w :
  clock (snd (run (handlerOf e r) w)) = clock w /\
  (tick w <= tick (snd (run (handlerOf e r) w)))%nat.
Proof.
  destruct e; cbn [handlerOf].
  - destruct (create_cases r w)
      as [(Hb & ->)|[(req & Hb & Hv & ->)|[(req & Hb & Hv & Hne & Hin & ->)
                                          |(req & Hb & Hv & Hfree & ->)]]];
      cbn [snd clock tick]; split; try done; try lia.
    unfold createdAtTick. destruct (String.eqb (Shortcode req) ""); lia.
  - destruct (redirect_cases r w)
      as [(_ & ->)|[(u0 & _ & _ & ->)|[(u0 & _ & _ & _ & ->)|(u0 & _ & _ & _ & ->)]]];
      cbn [snd clock tick]; split; try done; lia.
  - by rewrite stats_run_world.
Qed.

(** X16.  Wrapped in the logging middleware, each of the three handlers answers
    what it answers on its own when started one clock reading later, and
    the stores end as the handler leaves them; the entry logged names the
    request's method and path, and on a clock that never runs backwards the
    elapsed time it gives is not negative. *)
Theorem logger_passes_through (e : Endpoint) (method path : string)
    (r : Request) (w : World) :
  monotone (clock w) ->
  fst (fst (ServeHTTP (handlerOf e) method path r w))
  = fst (run (handlerOf e r) (snd (Now w))) /\
  sameStores (snd (run (handlerOf e r) (snd (Now w))))
             (snd (fst (ServeHTTP (handlerOf e) method path r w))) /\
  Method (snd (ServeHTTP (handlerOf e) method path r w)) = method /\
  Path (snd (ServeHTTP (handlerOf e) method path r w)) = path /\
  0 <= Elapsed (snd (ServeHTTP (handlerOf e) method path r w)).
Proof.
  intros Hmono. unfold ServeHTTP. cbn [fst snd Method Path Elapsed].
  repeat split.
  destruct (handler_clock e r (snd (Now w))) as [Hclock Htick].
  rewrite Hclock. cbn [Now snd clock tick] in *.
  assert (clock w (tick w)
          <= clock w (tick (snd (run (handlerOf e r)
                                     {| urlStore := urlStore w; analytics := analytics w;
                                        clock := clock w; tick := S (tick w) |}))))
    by (apply Hmono; lia).
  unfold Sub. lia.
Qed.

Lemma logger_passes_through_witness :
  0 <= Elapsed (snd (ServeHTTP (handlerOf GetShortcode) "GET" "/abc123"
                       (getRequest "abc123" "192.0.2.1:1234")
                       {| urlStore := {[ "abc123" := liveRecord ]};
                          analytics := {[ "abc123" := [] ]};
                          clock := tickingClock; tick := 0 |})).
Proof.
  apply (logger_passes_through GetShortcode "GET" "/abc123"
           (getRequest "abc123" "192.0.2.1:1234")
           {| urlStore := {[ "abc123" := liveRecord ]};
              analytics := {[ "abc123" := [] ]};
              clock := tickingClock; tick := 0 |}).
  intros i j Hij. cbn [clock]. unfold tickingClock. lia.
Defined.
